(** * Install Bridge: the core module ([src/core.js]), the HTTP server
    and the command line in Rocq

    A shallow embedding of the pure logic layer of Install Bridge
    (configuration validation, OS detection, install-target resolution,
    badge and snippet generation, configuration parsing, templates), of
    the HTTP server around it and of the command-line script, followed by
    the properties its specification states about the core and by further
    properties of the three.

    The file has these parts:
    - [JS]: the fragment of JavaScript the core is written in (values,
      truthiness, [typeof], property reads, string operations);
    - the host interface ([Host]) and the functions of [core.js], each
      translated from its source text;
    - [Reference]: an executable host, to run the core on concrete inputs;
    - the vocabulary of the specification;
    - [Server]: the handlers and the router of the HTTP server, over the
      calls made on a response, with [ReferenceNode] to run them;
    - [Cli]: the commands of [bin/install-bridge.js], over a directory and
      a console, with [ReferencePrinter] to run them;
    - the theorems of the specification, and their instances at concrete
      inputs;
    - further properties of the core, of the server and of the command
      line, and their instances at concrete inputs. *)

From Stdlib Require Import String Ascii List Bool Arith NArith ZArith Lia PrimFloat.
From Stdlib Require Uint63.
From Stdlib Require Import DecimalString Permutation.
From ExtLib Require Import Structures.Monad.
Import ListNotations.
Import MonadNotation.
Local Open Scope string_scope.
Local Open Scope monad_scope.

(* ===================================================================== *)
(** * The JavaScript fragment *)
(* ===================================================================== *)

Module JS.

(** ** Values

    The values the core can meet: JSON data (what [JSON.parse] yields),
    [undefined], and the two kinds of thing a property read on a plain
    object can find on [Object.prototype]: a built-in function, or
    (under [__proto__]) [Object.prototype] itself.

    Strings are Rocq strings read as sequences of UTF-16 code units, one
    character per unit, so the embedding covers the code units below 256.
    A [VObj] lists the object's own enumerable properties in the order
    [Object.keys] reports them; its keys are pairwise distinct. *)
#[warnings="-register-all"]
Inductive value : Type :=
| VUndefined
| VNull
| VBool (b : bool)
| VNum (x : float)
| VStr (s : string)
| VArr (items : list value)
| VObj (props : list (string * value))
| VBuiltin (name : string)
| VObjectPrototype.

(** ** Outcomes

    A JavaScript expression returns a value or throws. [Beyond] marks an
    evaluation that leaves the embedded fragment (number formatting of an
    arbitrary double, string coercion of objects, members of the built-in
    prototypes other than [Object.prototype]); nothing is claimed there. *)
Inductive exn : Type :=
| TypeError
| SyntaxError (message : string).

Inductive outcome (A : Type) : Type :=
| Ok (a : A)
| Throw (e : exn)
| Beyond.

Arguments Ok {A} a.
Arguments Throw {A} e.
Arguments Beyond {A}.

#[export] Instance Monad_outcome : Monad outcome :=
  {| ret := @Ok;
     bind := fun A B (m : outcome A) (k : A -> outcome B) =>
       match m with
       | Ok a => k a
       | Throw e => Throw e
       | Beyond => Beyond
       end |}.

(** [try { body } catch (err) { handler }] *)
Definition try_catch {A} (body : outcome A) (handler : exn -> outcome A) : outcome A :=
  match body with
  | Throw e => handler e
  | other => other
  end.

(** [err.message]: the text of a [TypeError] is the engine's own. *)
Definition message_of (err : exn) : outcome string :=
  match err with
  | SyntaxError message => Ok message
  | TypeError => Beyond
  end.

(** ** Strings *)

(** The double quote, and a reader for text written with apostrophes where
    the source has double quotes (no template of [core.js] contains an
    apostrophe). Only literal text goes through [dquote], never an
    interpolated value. *)
Definition dq : ascii := ascii_of_nat 34.

Fixpoint dquote (s : string) : string :=
  match s with
  | EmptyString => EmptyString
  | String c s' => String (if Ascii.eqb c "'" then dq else c) (dquote s')
  end.

(** [s.includes(t)] *)
Fixpoint includes (s t : string) : bool :=
  prefix t s ||
  match s with
  | EmptyString => false
  | String _ s' => includes s' t
  end.

(** [s.toLowerCase()] on code units below 256: A-Z, and the Latin-1
    capitals U+00C0..U+00DE without the multiplication sign U+00D7. *)
Definition lower_unit (c : ascii) : ascii :=
  let n := N_of_ascii c in
  if ((65 <=? n) && (n <=? 90) || (192 <=? n) && (n <=? 222) && negb (n =? 215))%N
  then ascii_of_N (n + 32)
  else c.

Fixpoint toLowerCase (s : string) : string :=
  match s with
  | EmptyString => EmptyString
  | String c s' => String (lower_unit c) (toLowerCase s')
  end.

(** [String(n)] for a non-negative integer below 2^53. *)
Definition decimal (n : N) : string := NilZero.string_of_uint (N.to_uint n).

(** [String(h / 2)] for a non-negative integer [h]: an integer, or an
    integer followed by [.5]. *)
Definition decimal_half (h : N) : string :=
  if N.even h then decimal (h / 2) else decimal (h / 2) ++ ".5".

(** [s.length] *)
Definition str_length (s : string) : N := N.of_nat (String.length s).

Fixpoint chars (s : string) : list string :=
  match s with
  | EmptyString => []
  | String c s' => String c EmptyString :: chars s'
  end.

(** ** Truthiness, [typeof], [||] *)

Definition truthy (v : value) : bool :=
  match v with
  | VUndefined | VNull => false
  | VBool b => b
  | VNum x => negb (PrimFloat.eqb x 0 || negb (PrimFloat.eqb x x))
  | VStr s => negb (s =? "")
  | VArr _ | VObj _ | VBuiltin _ | VObjectPrototype => true
  end.

Definition typeof (v : value) : string :=
  match v with
  | VUndefined => "undefined"
  | VNull => "object"
  | VBool _ => "boolean"
  | VNum _ => "number"
  | VStr _ => "string"
  | VArr _ | VObj _ | VObjectPrototype => "object"
  | VBuiltin _ => "function"
  end.

(** [a || b] on values already evaluated. *)
Definition or_ (a b : value) : value := if truthy a then a else b.

(** A parameter with a default: [f(x = d)] takes [d] when [x] is [undefined]. *)
Definition default_param (x d : value) : value :=
  match x with
  | VUndefined => d
  | _ => x
  end.

(** [a === b] against a string literal. *)
Definition strict_eq_str (a : value) (lit : string) : bool :=
  match a with
  | VStr s => s =? lit
  | _ => false
  end.

(** ** Properties *)

Fixpoint assoc (k : string) (props : list (string * value)) : option value :=
  match props with
  | [] => None
  | (k', v) :: rest => if k =? k' then Some v else assoc k rest
  end.

(** [o[k] = v] on a plain object: an existing key keeps its place, a new
    one goes last. *)
Fixpoint set_member (k : string) (v : value) (props : list (string * value))
  : list (string * value) :=
  match props with
  | [] => [(k, v)]
  | (k', v') :: rest =>
      if k =? k' then (k', v) :: rest else (k', v') :: set_member k v rest
  end.

Fixpoint indexed_from (i : N) (items : list value) : list (string * value) :=
  match items with
  | [] => []
  | v :: rest => (decimal i, v) :: indexed_from (N.succ i) rest
  end.

(** The own enumerable properties [Object.keys] and [Object.values] walk:
    those of an object, the elements of an array, the code units of a
    string; nothing for the other values. *)
Definition own_props (v : value) : list (string * value) :=
  match v with
  | VObj props => props
  | VArr items => indexed_from 0 items
  | VStr s => indexed_from 0 (map VStr (chars s))
  | _ => []
  end.

Definition Object_keys (v : value) : outcome (list string) :=
  match v with
  | VUndefined | VNull => Throw TypeError
  | _ => Ok (map fst (own_props v))
  end.

Definition Object_values (v : value) : outcome (list value) :=
  match v with
  | VUndefined | VNull => Throw TypeError
  | _ => Ok (map snd (own_props v))
  end.

(** The members of [Object.prototype]. *)
Definition object_prototype_functions : list string :=
  ["constructor"; "hasOwnProperty"; "isPrototypeOf"; "propertyIsEnumerable";
   "toLocaleString"; "toString"; "valueOf";
   "__defineGetter__"; "__defineSetter__"; "__lookupGetter__"; "__lookupSetter__"].

Definition inherited (k : string) : value :=
  if k =? "__proto__" then VObjectPrototype
  else if existsb (String.eqb k) object_prototype_functions then VBuiltin k
  else VUndefined.

(** [o[k]] on a plain object: the own property, else what
    [Object.prototype] holds under [k], else [undefined]. *)
Definition member (props : list (string * value)) (k : string) : value :=
  match assoc k props with
  | Some v => v
  | None => inherited k
  end.

(** The property names [core.js] reads by name. No built-in prototype
    defines any of them. *)
Definition core_fields : list string :=
  ["name"; "installers"; "homepage"; "fallback"; "badge";
   "label"; "color"; "style"; "darwin"; "win32"; "linux"].

(** [v[k]] and [v.k]. Reading a property of [undefined] or [null] throws.
    On arrays and primitives the own elements and the names of
    [core_fields] are read exactly; other names may live on
    [Array.prototype] or a wrapper prototype and are [Beyond], as is
    every read on a built-in function. *)
Definition get_prop (v : value) (k : string) : outcome value :=
  match v with
  | VUndefined | VNull => Throw TypeError
  | VObj props => Ok (member props k)
  | VObjectPrototype =>
      Ok (if k =? "__proto__" then VNull
          else if existsb (String.eqb k) object_prototype_functions then VBuiltin k
          else VUndefined)
  | VBuiltin _ => Beyond
  | VArr _ | VStr _ | VBool _ | VNum _ =>
      match assoc k (own_props v) with
      | Some x => Ok x
      | None => if existsb (String.eqb k) core_fields then Ok VUndefined else Beyond
      end
  end.

(** [v.length] as the core uses it, on a string. On [undefined] and
    [null] the read throws; on other values the result feeds arithmetic
    on non-integers and is [Beyond]. *)
Definition length_of (v : value) : outcome N :=
  match v with
  | VStr s => Ok (str_length s)
  | VUndefined | VNull => Throw TypeError
  | _ => Beyond
  end.

(** [`${v}`]: string conversion inside a template literal. *)
Definition to_string (v : value) : outcome string :=
  match v with
  | VStr s => Ok s
  | VUndefined => Ok "undefined"
  | VNull => Ok "null"
  | VBool true => Ok "true"
  | VBool false => Ok "false"
  | _ => Beyond
  end.

(** [v.toLowerCase()]: the string method; calling what is not a function
    throws. *)
Definition call_toLowerCase (v : value) : outcome string :=
  match v with
  | VStr s => Ok (toLowerCase s)
  | VUndefined | VNull => Throw TypeError
  | VObj props =>
      match assoc "toLowerCase" props with
      | Some (VBuiltin _) => Beyond
      | _ => Throw TypeError
      end
  | _ => Throw TypeError
  end.

(** [xs.push(x)] on an array threaded as a list. *)
Definition push {A : Type} (xs : list A) (x : A) : list A := (xs ++ [x])%list.

(** [xs.forEach(f)] where [f] updates an accumulator. *)
Fixpoint forEach {A S : Type} (xs : list A) (f : S -> A -> outcome S) (s : S) : outcome S :=
  match xs with
  | [] => Ok s
  | x :: rest => s' <- f s x ;; forEach rest f s'
  end.

End JS.

Import JS.

(* ===================================================================== *)
(** * The host interface *)
(* ===================================================================== *)

(** What the core takes from the platform it runs on:
    - [URL_parses s]: [new URL(s)] returns, that is, does not throw;
    - [JSON_parse s]: [JSON.parse(s)], either the [SyntaxError]'s message
      or the value read;
    - [JSON_stringify v]: [JSON.stringify(v)], [None] when it returns
      [undefined]. *)
Class Host : Type := {
  URL_parses : string -> bool;
  JSON_parse : string -> string + value;
  JSON_stringify : value -> option string
}.

(* ===================================================================== *)
(** * The core module *)
(* ===================================================================== *)

(** [const PLATFORM_ORDER = ['darwin', 'win32', 'linux'];] *)
Definition PLATFORM_ORDER : list string := ["darwin"; "win32"; "linux"].

(** [{ valid, errors }] *)
Record ValidationResult : Type := {
  valid : bool;
  errors : list string
}.

(** [{ available, platform, url }] or [{ available, platform, fallback }]:
    [None] is a field the object literal does not have. *)
Record InstallTarget : Type := {
  available : bool;
  platform : string;
  url : option value;
  fallback : option value
}.

(** [{ markdown, html }] *)
Record Snippets : Type := {
  markdown : string;
  html : string
}.

(** [{ success, config }] or [{ success, errors }]; the [errors] field is
    [parse_errors] here, [errors] being the field of a validation
    result. *)
Record ParseResult : Type := {
  success : bool;
  config : option value;
  parse_errors : option (list string)
}.

Section Validation.

Context {host : Host}.

(** [isValidURL(value)] *)
Definition isValidURL (value : value) : bool :=
  match value with
  | VStr s => URL_parses s
  | _ => false
  end.

(** The body of [platforms.forEach(platform => { ... })] in
    [validateConfig]. *)
Definition check_platform (installers : value) (errors : list string)
  (platform : string) : outcome (list string) :=
  let errors :=
    if negb (existsb (String.eqb platform) PLATFORM_ORDER)
    then push errors ("invalid platform: " ++ platform ++ " (must be darwin, win32, or linux)")
    else errors in
  url <- get_prop installers platform ;;
  ret (if negb (isValidURL url)
       then push errors ("installer for " ++ platform ++ " must be a valid HTTP(S) URL")
       else errors).

(** [validateConfig(config)] *)
Definition validateConfig (config : value) : outcome ValidationResult :=
  let errors : list string := [] in
  if negb (truthy config) || negb (typeof config =? "object")
  then ret {| valid := false; errors := ["Config must be an object"] |}
  else
    name <- get_prop config "name" ;;
    let errors :=
      if negb (truthy name) || negb (typeof name =? "string")
      then push errors "name is required and must be a string"
      else errors in
    installers <- get_prop config "installers" ;;
    errors <-
      (if negb (truthy installers) || negb (typeof installers =? "object")
       then ret (push errors "installers is required and must be an object")
       else
         platforms <- Object_keys installers ;;
         let errors :=
           if (List.length platforms =? 0)%nat
           then push errors "at least one installer platform must be specified"
           else errors in
         forEach platforms (check_platform installers) errors) ;;
    ret {| valid := (List.length errors =? 0)%nat; errors := errors |}.

(** [parseConfig(jsonString)] *)
Definition parseConfig (jsonString : string) : outcome ParseResult :=
  try_catch
    (config <- match JSON_parse jsonString with
               | inl message => Throw (SyntaxError message)
               | inr v => ret v
               end ;;
     validation <- validateConfig config ;;
     if negb (valid validation)
     then ret {| success := false; config := None;
                 parse_errors := Some (errors validation) |}
     else ret {| success := true; config := Some config; parse_errors := None |})
    (fun err =>
       message <- message_of err ;;
       ret {| success := false; config := None;
              parse_errors := Some ["Invalid JSON: " ++ message] |}).

End Validation.

(** [detectOS(userAgent)] *)
Definition detectOS (userAgent : value) : outcome string :=
  if negb (truthy userAgent) then ret "unknown"
  else
    ua <- call_toLowerCase userAgent ;;
    if includes ua "mac" || includes ua "darwin" ||
       includes ua "iphone" || includes ua "ipad"
    then ret "darwin"
    else if includes ua "linux" || includes ua "android"
    then ret "linux"
    else if includes ua "win"
    then ret "win32"
    else ret "unknown".

(** The loop [for (const platform of PLATFORM_ORDER)] of
    [getFirstInstaller]: [Some] is the value its [return] leaves with. *)
Fixpoint first_in_order (installers : value) (order : list string)
  : outcome (option value) :=
  match order with
  | [] => ret None
  | platform :: rest =>
      v <- get_prop installers platform ;;
      if truthy v
      then v' <- get_prop installers platform ;; ret (Some v')
      else first_in_order installers rest
  end.

(** [getFirstInstaller(installers = {})] *)
Definition getFirstInstaller (installers : value) : outcome value :=
  let installers := default_param installers (VObj []) in
  found <- first_in_order installers PLATFORM_ORDER ;;
  match found with
  | Some v => ret v
  | None =>
      values <- Object_values installers ;;
      ret (or_ (nth 0 values VUndefined) VNull)
  end.

(** [getInstallTarget(config, os)] *)
Definition getInstallTarget (config : value) (os : string) : outcome InstallTarget :=
  installers <- (i <- get_prop config "installers" ;; ret (or_ i (VObj []))) ;;
  v <- get_prop installers os ;;
  if negb (truthy v)
  then
    fb <- (f <- get_prop config "fallback" ;;
           if truthy f then ret f
           else h <- get_prop config "homepage" ;; ret (or_ h VNull)) ;;
    ret {| available := false; platform := os; url := None; fallback := Some fb |}
  else
    u <- get_prop installers os ;;
    ret {| available := true; platform := os; url := Some u; fallback := None |}.

(** The two layouts of [generateBadge], as the template literals spell
    them; [labelWidth / 2] and [labelWidth + nameWidth / 2] are printed by
    [decimal_half] from twice their value. *)
Definition flat_badge (labelS appNameS colorS : string)
  (labelWidth nameWidth totalWidth : N) : string :=
  dquote "<svg xmlns='http://www.w3.org/2000/svg' width='" ++
    decimal totalWidth ++
    dquote "' height='20'>
  <linearGradient id='b' x2='0' y2='100%'>
    <stop offset='0' stop-color='#bbb' stop-opacity='.1'/>
    <stop offset='1' stop-opacity='.1'/>
  </linearGradient>
  <clipPath id='a'>
    <rect width='" ++
    decimal totalWidth ++
    dquote "' height='20' rx='3' fill='#fff'/>
  </clipPath>
  <g clip-path='url(#a)'>
    <path fill='#555' d='M0 0h" ++
    decimal labelWidth ++
    dquote "v20H0z'/>
    <path fill='" ++
    colorS ++
    dquote "' d='M" ++
    decimal labelWidth ++
    " 0h" ++
    decimal nameWidth ++
    "v20H" ++
    decimal labelWidth ++
    dquote "z'/>
    <path fill='url(#b)' d='M0 0h" ++
    decimal totalWidth ++
    dquote "v20H0z'/>
  </g>
  <g fill='#fff' text-anchor='middle'
     font-family='DejaVu Sans,Verdana,Geneva,sans-serif' font-size='11'>
    <text x='" ++
    decimal_half labelWidth ++
    dquote "' y='15' fill='#010101' fill-opacity='.3'>" ++
    labelS ++
    dquote "</text>
    <text x='" ++
    decimal_half labelWidth ++
    dquote "' y='14'>" ++
    labelS ++
    dquote "</text>
    <text x='" ++
    decimal_half (2 * labelWidth + nameWidth) ++
    dquote "' y='15' fill='#010101' fill-opacity='.3'>" ++
    appNameS ++
    dquote "</text>
    <text x='" ++
    decimal_half (2 * labelWidth + nameWidth) ++
    dquote "' y='14'>" ++
    appNameS ++
    "</text>
  </g>
</svg>".

Definition plain_badge (labelS appNameS colorS : string)
  (labelWidth nameWidth totalWidth : N) : string :=
  dquote "<svg xmlns='http://www.w3.org/2000/svg' width='" ++
    decimal totalWidth ++
    dquote "' height='20'>
  <rect width='" ++
    decimal labelWidth ++
    dquote "' height='20' fill='#555'/>
  <rect x='" ++
    decimal labelWidth ++
    dquote "' width='" ++
    decimal nameWidth ++
    dquote "' height='20' fill='" ++
    colorS ++
    dquote "'/>
  <text x='" ++
    decimal_half labelWidth ++
    dquote "' y='14' fill='#fff'
        font-family='Arial,sans-serif' font-size='11'
        text-anchor='middle'>" ++
    labelS ++
    dquote "</text>
  <text x='" ++
    decimal_half (2 * labelWidth + nameWidth) ++
    dquote "' y='14' fill='#fff'
        font-family='Arial,sans-serif' font-size='11'
        text-anchor='middle'>" ++
    appNameS ++
    "</text>
</svg>".

(** [generateBadge(config)] *)
Definition generateBadge (config : value) : outcome string :=
  opts <- (b <- get_prop config "badge" ;; ret (or_ b (VObj []))) ;;
  label <- (l <- get_prop opts "label" ;; ret (or_ l (VStr "Install"))) ;;
  appName <- get_prop config "name" ;;
  color <- (c <- get_prop opts "color" ;; ret (or_ c (VStr "#0366d6"))) ;;
  style <- (s <- get_prop opts "style" ;; ret (or_ s (VStr "flat"))) ;;
  labelLength <- length_of label ;;
  let labelWidth := (labelLength * 6 + 10)%N in
  nameLength <- length_of appName ;;
  let nameWidth := (nameLength * 7 + 10)%N in
  let totalWidth := (labelWidth + nameWidth)%N in
  colorS <- to_string color ;;
  labelS <- to_string label ;;
  appNameS <- to_string appName ;;
  if strict_eq_str style "flat"
  then ret (flat_badge labelS appNameS colorS labelWidth nameWidth totalWidth)
  else ret (plain_badge labelS appNameS colorS labelWidth nameWidth totalWidth).

(** [generateSnippets(config, badgePath = './install-badge.svg', installURL = null)] *)
Definition generateSnippets (config badgePath installURL : value) : outcome Snippets :=
  let badgePath := default_param badgePath (VStr "./install-badge.svg") in
  let installURL := default_param installURL VNull in
  targetURL <-
    (if truthy installURL then ret installURL
     else
       homepage <- get_prop config "homepage" ;;
       if truthy homepage then ret homepage
       else
         installers <- get_prop config "installers" ;;
         getFirstInstaller installers) ;;
  name <- get_prop config "name" ;;
  nameS <- to_string name ;;
  pathS <- to_string badgePath ;;
  urlS <- to_string targetURL ;;
  ret {| markdown :=
           "[![Install " ++ nameS ++ "](" ++ pathS ++ ")](" ++ urlS ++ ")";
         html :=
           dquote "<a href='" ++
           urlS ++
           dquote "'>
  <img src='" ++
           pathS ++
           dquote "' alt='Install " ++
           nameS ++
           dquote "' />
</a>" |}.

(** [createTemplate(appName = 'MyApp')] *)
Definition createTemplate (appName : value) : outcome value :=
  let appName := default_param appName (VStr "MyApp") in
  appNameS <- to_string appName ;;
  ret (VObj
    [ ("name", appName);
      ("installers", VObj
        [ ("darwin", VStr ("https://github.com/user/repo/releases/latest/download/" ++ appNameS ++ "-macOS.dmg"));
          ("win32", VStr ("https://github.com/user/repo/releases/latest/download/" ++ appNameS ++ "-windows.exe"));
          ("linux", VStr ("https://github.com/user/repo/releases/latest/download/" ++ appNameS ++ "-linux.AppImage")) ]);
      ("homepage", VStr "https://github.com/user/repo");
      ("fallback", VStr "https://github.com/user/repo/releases");
      ("badge", VObj
        [ ("label", VStr "Install");
          ("color", VStr "#0366d6");
          ("style", VStr "flat") ]) ]).

(* ===================================================================== *)
(** * A reference host *)
(* ===================================================================== *)

(** An executable instance of [Host], used to run the core on concrete
    inputs. Its URL check keeps the first steps of the URL Standard's
    parser (a scheme, and a non-empty host after the slashes of a special
    scheme); its JSON codec covers objects, arrays, strings, booleans,
    [null] and the integers below 2^53. The theorems quantify over every
    host and do not depend on it. *)
Module Reference.

Definition between (lo hi : N) (c : ascii) : bool :=
  let n := N_of_ascii c in ((lo <=? n) && (n <=? hi))%N.

Definition is_alpha (c : ascii) : bool := between 65 90 c || between 97 122 c.
Definition is_digit (c : ascii) : bool := between 48 57 c.

Definition is_scheme_unit (c : ascii) : bool :=
  is_alpha c || is_digit c || Ascii.eqb c "+" || Ascii.eqb c "-" || Ascii.eqb c ".".

(** Reads [scheme ":"]; returns the scheme in lower case and the rest. *)
Fixpoint scheme_split (s acc : string) : option (string * string) :=
  match s with
  | EmptyString => None
  | String c rest =>
      if Ascii.eqb c ":" then Some (acc, rest)
      else if is_scheme_unit c
      then scheme_split rest (acc ++ String (lower_unit c) EmptyString)
      else None
  end.

(** After the scheme of a special URL: slashes, then a host that is not
    empty. *)
Fixpoint host_present (s : string) : bool :=
  match s with
  | EmptyString => false
  | String c rest =>
      if Ascii.eqb c "/" || Ascii.eqb c "\" then host_present rest
      else negb (Ascii.eqb c "?" || Ascii.eqb c "#")
  end.

Definition special_schemes : list string := ["http"; "https"; "ws"; "wss"; "ftp"].

Definition url_parses (s : string) : bool :=
  match s with
  | EmptyString => false
  | String c _ =>
      is_alpha c &&
      match scheme_split s "" with
      | None => false
      | Some (scheme, rest) =>
          if existsb (String.eqb scheme) special_schemes
          then host_present rest
          else true
      end
  end.

(** ** JSON text *)

Definition unit_string (c : ascii) : string := String c EmptyString.

Definition hex_digit (n : N) : ascii :=
  if (n <? 10)%N then ascii_of_N (48 + n) else ascii_of_N (87 + n).

(** One code unit inside a JSON string literal. *)
Definition escape_unit (c : ascii) : string :=
  let n := N_of_ascii c in
  if Ascii.eqb c dq then String "\" (unit_string dq)
  else if Ascii.eqb c "\" then "\\"
  else if (n =? 8)%N then "\b"
  else if (n =? 9)%N then "\t"
  else if (n =? 10)%N then "\n"
  else if (n =? 12)%N then "\f"
  else if (n =? 13)%N then "\r"
  else if (n <? 32)%N
  then "\u00" ++ unit_string (hex_digit (n / 16)) ++ unit_string (hex_digit (n mod 16))
  else unit_string c.

Fixpoint escape (s : string) : string :=
  match s with
  | EmptyString => EmptyString
  | String c rest => escape_unit c ++ escape rest
  end.

Definition quote (s : string) : string := String dq (escape s ++ unit_string dq).

Fixpoint join (sep : string) (xs : list string) : string :=
  match xs with
  | [] => ""
  | [x] => x
  | x :: rest => x ++ sep ++ join sep rest
  end.

(** The integer a double holds, when it holds one below 2^53. *)
Definition integer_of (x : float) : option (bool * N) :=
  let a := PrimFloat.abs x in
  if PrimFloat.ltb a 9007199254740992
  then
    let n := Z.to_N (Uint63.to_Z (PrimFloat.normfr_mantissa (fst (PrimFloat.frshiftexp a)))) in
    let e := (Uint63.to_Z (snd (PrimFloat.frshiftexp a)) - 2101 - 53)%Z in
    if PrimFloat.eqb a 0 then Some (false, 0%N)
    else if (e <=? 0)%Z && (N.land n (N.ones (Z.to_N (- e))) =? 0)%N
    then Some (PrimFloat.ltb x 0, N.shiftr n (Z.to_N (- e)))
    else None
  else None.

Definition number_text (x : float) : option string :=
  match integer_of x with
  | Some (neg, n) => Some ((if neg then "-" else "") ++ decimal n)
  | None => None
  end.

(** [JSON.stringify]: [undefined] and functions have no text, are left
    out of objects and stand as [null] in arrays. A number outside the
    integers below 2^53 is printed as [null], as [JSON.stringify] prints
    [NaN] and the infinities. *)
Fixpoint stringify (v : value) : option string :=
  match v with
  | VUndefined | VBuiltin _ => None
  | VNull => Some "null"
  | VBool true => Some "true"
  | VBool false => Some "false"
  | VNum x =>
      match number_text x with
      | Some t => Some t
      | None => Some "null"
      end
  | VStr s => Some (quote s)
  | VArr items =>
      Some ("[" ++
            join "," (map (fun item =>
                             match stringify item with
                             | Some t => t
                             | None => "null"
                             end) items) ++
            "]")
  | VObj props =>
      Some ("{" ++
            join "," (flat_map (fun kv =>
                                  match stringify (snd kv) with
                                  | Some t => [quote (fst kv) ++ ":" ++ t]
                                  | None => []
                                  end) props) ++
            "}")
  | VObjectPrototype => Some "{}"
  end.

Definition is_ws (c : ascii) : bool :=
  let n := N_of_ascii c in
  ((n =? 32) || (n =? 9) || (n =? 10) || (n =? 13))%N.

Fixpoint skip_ws (s : string) : string :=
  match s with
  | String c rest => if is_ws c then skip_ws rest else s
  | EmptyString => s
  end.

Definition hex_value (c : ascii) : option N :=
  let n := N_of_ascii c in
  if is_digit c then Some (n - 48)%N
  else if between 97 102 c then Some (n - 87)%N
  else if between 65 70 c then Some (n - 55)%N
  else None.

Definition hex4 (a b c d : ascii) : option N :=
  match hex_value a, hex_value b, hex_value c, hex_value d with
  | Some x, Some y, Some z, Some w => Some (((x * 16 + y) * 16 + z) * 16 + w)%N
  | _, _, _, _ => None
  end.

Definition unescape (e : ascii) : option ascii :=
  if Ascii.eqb e dq then Some dq
  else if Ascii.eqb e "\" then Some "\"%char
  else if Ascii.eqb e "/" then Some "/"%char
  else if Ascii.eqb e "b" then Some (ascii_of_N 8)
  else if Ascii.eqb e "t" then Some (ascii_of_N 9)
  else if Ascii.eqb e "n" then Some (ascii_of_N 10)
  else if Ascii.eqb e "f" then Some (ascii_of_N 12)
  else if Ascii.eqb e "r" then Some (ascii_of_N 13)
  else None.

(** The body of a string literal, after its opening quote. *)
Fixpoint string_body (s acc : string) : option (string * string) :=
  match s with
  | EmptyString => None
  | String c rest =>
      if Ascii.eqb c dq then Some (acc, rest)
      else if Ascii.eqb c "\" then
        match rest with
        | String e rest' =>
            if Ascii.eqb e "u" then
              match rest' with
              | String h1 (String h2 (String h3 (String h4 rest''))) =>
                  match hex4 h1 h2 h3 h4 with
                  | Some n =>
                      if (n <? 256)%N
                      then string_body rest'' (acc ++ unit_string (ascii_of_N n))
                      else None
                  | None => None
                  end
              | _ => None
              end
            else
              match unescape e with
              | Some c' => string_body rest' (acc ++ unit_string c')
              | None => None
              end
        | EmptyString => None
        end
      else if (N_of_ascii c <? 32)%N then None
      else string_body rest (acc ++ unit_string c)
  end.

Fixpoint digits (s : string) (acc : N) : N * string :=
  match s with
  | String c rest =>
      if is_digit c then digits rest (acc * 10 + (N_of_ascii c - 48))%N else (acc, s)
  | EmptyString => (acc, s)
  end.

Definition float_of (neg : bool) (n : N) : float :=
  let x := PrimFloat.of_uint63 (Uint63.of_Z (Z.of_N n)) in
  if neg then PrimFloat.opp x else x.

(** An integer literal; fractions and exponents are not read. *)
Definition number (s : string) : option (value * string) :=
  let (neg, s1) :=
    match s with
    | String "-" rest => (true, rest)
    | _ => (false, s)
    end in
  match s1 with
  | String c rest =>
      if is_digit c then
        let (n, s2) := digits s1 0 in
        let leading_zero :=
          Ascii.eqb c "0" &&
          match rest with
          | String c' _ => is_digit c'
          | EmptyString => false
          end in
        let more :=
          match s2 with
          | String c' _ => Ascii.eqb c' "." || Ascii.eqb c' "e" || Ascii.eqb c' "E"
          | EmptyString => false
          end in
        if leading_zero || more || negb (n <? 9007199254740992)%N then None
        else Some (VNum (float_of neg n), s2)
      else None
  | EmptyString => None
  end.

Fixpoint drop (n : nat) (s : string) : string :=
  match n, s with
  | S n', String _ rest => drop n' rest
  | _, _ => s
  end.

Fixpoint parse_value (fuel : nat) (s : string) : option (value * string) :=
  match fuel with
  | O => None
  | S fuel' =>
      match skip_ws s with
      | EmptyString => None
      | String c rest as s0 =>
          if Ascii.eqb c dq then
            match string_body rest "" with
            | Some (t, r) => Some (VStr t, r)
            | None => None
            end
          else if Ascii.eqb c "[" then
            match skip_ws rest with
            | String "]" r => Some (VArr [], r)
            | _ =>
                match parse_elements fuel' rest with
                | Some (items, r) => Some (VArr items, r)
                | None => None
                end
            end
          else if Ascii.eqb c "{" then
            match skip_ws rest with
            | String "}" r => Some (VObj [], r)
            | _ =>
                match parse_members fuel' rest with
                | Some (props, r) =>
                    Some (VObj (fold_left (fun acc kv => set_member (fst kv) (snd kv) acc)
                                  props []), r)
                | None => None
                end
            end
          else if prefix "null" s0 then Some (VNull, drop 4 s0)
          else if prefix "true" s0 then Some (VBool true, drop 4 s0)
          else if prefix "false" s0 then Some (VBool false, drop 5 s0)
          else number s0
      end
  end
with parse_elements (fuel : nat) (s : string) : option (list value * string) :=
  match fuel with
  | O => None
  | S fuel' =>
      match parse_value fuel' s with
      | Some (v, r) =>
          match skip_ws r with
          | String c r' =>
              if Ascii.eqb c "," then
                match parse_elements fuel' r' with
                | Some (vs, r'') => Some (v :: vs, r'')
                | None => None
                end
              else if Ascii.eqb c "]" then Some ([v], r')
              else None
          | EmptyString => None
          end
      | None => None
      end
  end
with parse_members (fuel : nat) (s : string) : option (list (string * value) * string) :=
  match fuel with
  | O => None
  | S fuel' =>
      match skip_ws s with
      | String c rest =>
          if Ascii.eqb c dq then
            match string_body rest "" with
            | Some (k, r) =>
                match skip_ws r with
                | String ":" r1 =>
                    match parse_value fuel' r1 with
                    | Some (v, r2) =>
                        match skip_ws r2 with
                        | String c2 r3 =>
                            if Ascii.eqb c2 "," then
                              match parse_members fuel' r3 with
                              | Some (kvs, r4) => Some ((k, v) :: kvs, r4)
                              | None => None
                              end
                            else if Ascii.eqb c2 "}" then Some ([(k, v)], r3)
                            else None
                        | EmptyString => None
                        end
                    | None => None
                    end
                | _ => None
                end
            | None => None
            end
          else None
      | EmptyString => None
      end
  end.

(** [JSON.parse] *)
Definition parse (s : string) : string + value :=
  match parse_value (2 * String.length s + 2) s with
  | Some (v, r) =>
      match skip_ws r with
      | EmptyString => inr v
      | String _ _ => inl "Unexpected non-whitespace character after JSON"
      end
  | None => inl "Unexpected token in JSON"
  end.

Definition host : Host :=
  {| URL_parses := url_parses;
     JSON_parse := parse;
     JSON_stringify := stringify |}.

End Reference.

(* ===================================================================== *)
(** * Vocabulary of the specification *)
(* ===================================================================== *)

(** The definitions below are not translations of source functions: they
    say, in the words of the specification, what the theorems compare the
    code with. *)

(** "A non-null object": what [typeof] calls an object, [null] apart. *)
Definition non_null_object (v : value) : bool :=
  match v with
  | VArr _ | VObj _ | VObjectPrototype => true
  | _ => false
  end.

(** "[name] absent or not a string": the error of the name check, if any. *)
Definition name_errors (name : value) : list string :=
  match name with
  | VStr (String _ _) => []
  | _ => ["name is required and must be a string"]
  end.

(** The error "naming the invalid platform and listing the three valid
    ones", and the error "naming that platform's URL as invalid". *)
Definition invalid_platform_error (key : string) : string :=
  "invalid platform: " ++ key ++ " (must be darwin, win32, or linux)".

Definition invalid_url_error (key : string) : string :=
  "installer for " ++ key ++ " must be a valid HTTP(S) URL".

(** "Key not in the closed platform set": the error naming the platform. *)
Definition platform_errors (key : string) : list string :=
  if existsb (String.eqb key) PLATFORM_ORDER then []
  else [invalid_platform_error key].

Section ValidationVocabulary.

Context {host : Host}.

(** "The value does not parse as a URL": the error naming that
    platform's URL. *)
Definition url_errors (key : string) (v : value) : list string :=
  if isValidURL v then []
  else [invalid_url_error key].

(** The two checks of one entry of [installers], each on its own. *)
Definition key_errors (entry : string * value) : list string :=
  (platform_errors (fst entry) ++ url_errors (fst entry) (snd entry))%list.

End ValidationVocabulary.

(** The result [validateConfig] builds from an error list. *)
Definition result_of (es : list string) : ValidationResult :=
  {| valid := (List.length es =? 0)%nat; errors := es |}.

(** The value an own key reads back. *)
Definition own_value (v : value) (k : string) : value :=
  match assoc k (own_props v) with
  | Some x => x
  | None => VUndefined
  end.

(** The [installers] mapping of a config, empty when the field is absent. *)
Definition installers_of (config : list (string * value)) : list (string * value) :=
  match member config "installers" with
  | VObj entries => entries
  | _ => []
  end.

(** "[installers] is a mapping, or absent." *)
Definition installers_mapping_or_absent (config : list (string * value)) : Prop :=
  member config "installers" = VUndefined \/
  exists entries, member config "installers" = VObj entries.

(** The first candidate that counts as given, else [null]. *)
Fixpoint first_truthy (candidates : list value) : value :=
  match candidates with
  | [] => VNull
  | v :: rest => if truthy v then v else first_truthy rest
  end.

(** The resolution order of the snippet target: "the explicit
    [installURL] argument, else [config.homepage], else the first
    installer found by walking [PLATFORM_ORDER], else the first value in
    the map's iteration order, else [null]". *)
Definition snippet_target (config : list (string * value)) (installURL : value) : value :=
  let installers := installers_of config in
  first_truthy
    ([default_param installURL VNull; member config "homepage"] ++
     map (member installers) PLATFORM_ORDER ++
     [nth 0 (map snd installers) VUndefined]).

(** The [badge] mapping of a config, empty when the field is absent. *)
Definition badge_of (config : list (string * value)) : list (string * value) :=
  match member config "badge" with
  | VObj fields => fields
  | _ => []
  end.

(** A text setting of the badge: the configured text, or the default when
    the field is absent or empty; [None] when the field is not text. *)
Definition setting (field : value) (default : string) : option string :=
  match field with
  | VUndefined | VStr EmptyString => Some default
  | VStr s => Some s
  | _ => None
  end.

(** "An SVG whose width attribute equals [w]": the opening tag both
    layouts start with. *)
Definition svg_open_tag (w : N) : string :=
  dquote "<svg xmlns='http://www.w3.org/2000/svg' width='" ++ decimal w ++
  dquote "' height='20'>".

(** "[badge] is a mapping, or absent." *)
Definition badge_mapping_or_absent (config : list (string * value)) : Prop :=
  truthy (member config "badge") = false \/
  exists fields, member config "badge" = VObj fields.

(** [s] ends with [t]. *)
Definition ends_with (s t : string) : Prop := exists pre, s = pre ++ t.

(** [a ?? b] *)
Definition nullish_or (a b : value) : value :=
  match a with
  | VUndefined | VNull => b
  | _ => a
  end.

(** The install target as the specification words it: available exactly
    when [installers] holds an entry for the platform, the fallback chosen
    by [??]. *)
Definition getInstallTarget_spec (config : list (string * value)) (p : string)
  : InstallTarget :=
  let installers :=
    match assoc "installers" config with
    | Some (VObj props) => props
    | _ => []
    end in
  match assoc p installers with
  | Some u => {| available := true; platform := p; url := Some u; fallback := None |}
  | None =>
      {| available := false; platform := p; url := None;
         fallback := Some (nullish_or (member config "fallback")
                             (nullish_or (member config "homepage") VNull)) |}
  end.

(** ** Configurations to run the core on *)

(** The configurations of the test suite, and variations. *)
Definition test_config : list (string * value) :=
  [ ("name", VStr "TestApp");
    ("installers", VObj [ ("linux", VStr "https://example.com/linux");
                          ("darwin", VStr "https://example.com/mac") ]) ].

Definition windows_config : list (string * value) :=
  [ ("name", VStr "TestApp");
    ("installers", VObj [ ("windows", VStr "not a url");
                          ("darwin", VStr "https://example.com/app.dmg") ]) ].

Definition bare_config : list (string * value) := [ ("name", VStr "TestApp") ].

Definition badge_config : list (string * value) :=
  [ ("name", VStr "TestApp");
    ("installers", VObj [ ("darwin", VStr "https://example.com/app.dmg") ]);
    ("badge", VObj [ ("label", VStr "Download"); ("color", VStr "#ff0000") ]) ].


(** ** Configs that pass validation *)

Section Accepted.

Context {host : Host}.

(** What [validateConfig] lets through: an object whose [name] is a
    non-empty string and whose [installers] is a non-empty mapping, each
    key one of [PLATFORM_ORDER], each value a string the URL parser
    accepts. *)
Definition accepted (c : value) : Prop :=
  exists (fields : list (string * value)) (name : string)
         (entries : list (string * value)),
    c = VObj fields /\
    member fields "name" = VStr name /\ name <> "" /\
    member fields "installers" = VObj entries /\ entries <> [] /\
    forall k, In k (map fst entries) ->
              In k PLATFORM_ORDER /\
              exists u, assoc k entries = Some (VStr u) /\ URL_parses u = true.

End Accepted.

(* ===================================================================== *)
(** * The HTTP server *)
(* ===================================================================== *)

(** The stateless wrapper of the core: decoding the configuration a
    request carries, the redirect and badge handlers, the fallback page
    and the router. A response object is followed through the calls made
    on it. *)
Module Server.

(** [const MAX_CONFIG_SIZE = 8 * 1024;] *)
Definition MAX_CONFIG_SIZE : N := 8 * 1024.

(** What the server takes from Node:
    - [url_pathname u] and [url_query u]: [url.parse(u).pathname] (a
      string or [null]) and [url.parse(u, true).query];
    - [Buffer_from_base64 s]: the bytes of [Buffer.from(s, 'base64')];
    - [Buffer_toString_utf8 b]: [b.toString('utf8')]. *)
Class Node : Type := {
  url_pathname : string -> value;
  url_query : string -> list (string * value);
  Buffer_from_base64 : string -> list Byte.byte;
  Buffer_toString_utf8 : list Byte.byte -> string
}.

(** [req]: its method, its URL and its [user-agent] header (a string, or
    [undefined] when the request has none). *)
Record Request : Type := {
  req_method : string;
  req_url : string;
  req_user_agent : value
}.

(** The calls made on [res]: [res.setHeader(name, v)], [res.writeHead(status,
    headers)] (no headers when called with the status alone) and
    [res.end(body)] ([undefined] when called with nothing). *)
Inductive call : Type :=
| SetHeader (name : string) (v : value)
| WriteHead (status : N) (headers : list (string * value))
| End (body : value).

(** What running server code comes to: it returns, it throws an error
    whose [message] is known, or it leaves the embedding ([Out]). *)
Inductive run (A : Type) : Type :=
| Return (a : A)
| Raise (message : string)
| Out.

Arguments Return {A} a.
Arguments Raise {A} message.
Arguments Out {A}.

#[export] Instance Monad_run : Monad run :=
  {| ret := @Return;
     bind := fun A B (m : run A) (k : A -> run B) =>
       match m with
       | Return a => k a
       | Raise message => Raise message
       | Out => Out
       end |}.

(** A call into the core: what it throws is seen through its message. *)
Definition of_core {A : Type} (m : outcome A) : run A :=
  match m with
  | Ok a => Return a
  | Throw (SyntaxError message) => Raise message
  | Throw TypeError => Out
  | Beyond => Out
  end.

(** [try { body } catch (err) { handler(err.message) }] *)
Definition try_catch_message {A : Type} (body : run A) (handler : string -> run A)
  : run A :=
  match body with
  | Raise message => handler message
  | other => other
  end.

(** A field of an object literal that may lack it. *)
Definition field (o : option value) : value :=
  match o with
  | Some v => v
  | None => VUndefined
  end.

(** The header values [writeHead] takes as they are: strings without
    control characters (the tab apart). On any other value it throws or
    converts, which is [Out] here. *)
Definition header_unit_ok (c : ascii) : bool :=
  let n := N_of_ascii c in
  ((n =? 9) || (32 <=? n) && negb (n =? 127))%N.

Definition header_text_ok (v : value) : bool :=
  match v with
  | VStr s => forallb header_unit_ok (list_ascii_of_string s)
  | _ => false
  end.

(** [{ ...defaults, ...headers }] *)
Definition spread (defaults headers : list (string * value)) : list (string * value) :=
  fold_left (fun acc kv => set_member (fst kv) (snd kv) acc) headers defaults.

(** [send(res, status, body, headers = {})] *)
Definition send (res : list call) (status : N) (body : value)
  (headers : list (string * value)) : run (list call) :=
  let all :=
    spread [ ("X-Content-Type-Options", VStr "nosniff");
             ("Referrer-Policy", VStr "no-referrer") ] headers in
  if forallb (fun kv => header_text_ok (snd kv)) all
  then ret (res ++ [WriteHead status all; End body])%list
  else Out.

(** [xs.join(sep)] on an array of strings. *)
Fixpoint join (sep : string) (xs : list string) : string :=
  match xs with
  | [] => ""
  | [x] => x
  | x :: rest => x ++ sep ++ join sep rest
  end.

(** Text written with backticks where the source has double quotes (the
    pages contain apostrophes, and no backtick). *)
Fixpoint bquote (s : string) : string :=
  match s with
  | EmptyString => EmptyString
  | String c s' => String (if Ascii.eqb c "`" then dq else c) (bquote s')
  end.

Section Handlers.

Context {host : Host} {node : Node}.

(** [decodeConfig(param)] *)
Definition decodeConfig (param : value) : run string :=
  if negb (truthy param) || negb (typeof param =? "string")
  then Raise "Missing config parameter"
  else
    match param with
    | VStr text =>
        let buf := Buffer_from_base64 text in
        if (MAX_CONFIG_SIZE <? N.of_nat (List.length buf))%N
        then Raise "Config too large"
        else ret (Buffer_toString_utf8 buf)
    | _ => Out
    end.

(** [parseConfigFromRequest(req)] *)
Definition parseConfigFromRequest (req : Request) : run value :=
  let params := url_query (req_url req) in
  json <- decodeConfig (member params "config") ;;
  result <- of_core (parseConfig json) ;;
  if negb (success result)
  then
    match parse_errors result with
    | Some errors => Raise ("Invalid config: " ++ join ", " errors)
    | None => Out
    end
  else ret (field (config result)).

(** One link of the fallback page: the body of [platforms.map(p => ...)]. *)
Definition download_link (platformNames : list (string * value)) (installers : value)
  (p : string) : outcome string :=
  href <- get_prop installers p ;;
  hrefS <- to_string href ;;
  nameS <- to_string (or_ (member platformNames p) (VStr p)) ;;
  ret (bquote "<a class=`btn` href=`" ++ hrefS ++ bquote "`>Download for " ++ nameS ++ "</a>").

Fixpoint map_links (platformNames : list (string * value)) (installers : value)
  (platforms : list string) : outcome (list string) :=
  match platforms with
  | [] => ret []
  | p :: rest =>
      link <- download_link platformNames installers p ;;
      links <- map_links platformNames installers rest ;;
      ret (link :: links)
  end.

(** The page of [generateFallbackPage], as its template literal spells
    it, around the texts its substitutions give. *)
Definition fallback_page (title heading detected notice links footer : string) : string :=
  bquote "<!DOCTYPE html>
<html lang=`en`>
<head>
<meta charset=`UTF-8`>
<meta name=`viewport` content=`width=device-width, initial-scale=1.0`>
<title>Install " ++
  title ++
  bquote "</title>
<style>
body {
  font-family: -apple-system,BlinkMacSystemFont,'Segoe UI',Roboto,sans-serif;
  background:#f5f5f5;
  display:flex;
  align-items:center;
  justify-content:center;
  min-height:100vh;
  margin:0;
  padding:20px;
}
.container {
  background:white;
  border-radius:8px;
  box-shadow:0 4px 12px rgba(0,0,0,0.1);
  max-width:520px;
  width:100%;
  padding:40px;
  text-align:center;
}
h1 { margin-bottom:10px; }
.notice {
  color:#d73a49;
  margin-bottom:20px;
}
a.btn {
  display:block;
  margin:10px 0;
  padding:14px 20px;
  background:#0366d6;
  color:white;
  text-decoration:none;
  border-radius:6px;
  font-weight:500;
}
a.btn:hover { background:#0256c1; }
.footer {
  margin-top:30px;
  font-size:14px;
  color:#666;
}
</style>
</head>
<body>
<div class=`container`>
<h1>Install " ++
  heading ++
  "</h1>
" ++
  detected ++
  "
" ++
  notice ++
  "
" ++
  links ++
  "
" ++
  footer ++
  "
</div>
</body>
</html>".

(** [generateFallbackPage(config, detectedOS)]. The footer the page gets
    when [config.homepage] is truthy holds characters beyond code unit
    255, so that branch is [Beyond]. *)
Definition generateFallbackPage (config : value) (detectedOS : string) : outcome string :=
  let platformNames :=
    [ ("darwin", VStr "macOS"); ("linux", VStr "Linux"); ("win32", VStr "Windows") ] in
  installers <- (i <- get_prop config "installers" ;; ret (or_ i (VObj []))) ;;
  platforms <- Object_keys installers ;;
  name <- get_prop config "name" ;;
  title <- to_string name ;;
  heading <- to_string name ;;
  detected <-
    (if negb (detectedOS =? "unknown")
     then
       osName <- to_string (or_ (member platformNames detectedOS) (VStr detectedOS)) ;;
       ret ("<p>Detected OS: " ++ osName ++ "</p>")
     else ret "") ;;
  notice <-
    (if negb (detectedOS =? "unknown")
     then
       installer <- get_prop installers detectedOS ;;
       ret (if negb (truthy installer)
            then bquote "<p class=`notice`>No installer available for your platform</p>"
            else "")
     else ret "") ;;
  links <- map_links platformNames installers platforms ;;
  homepage <- get_prop config "homepage" ;;
  footer <- (if truthy homepage then Beyond else ret "") ;;
  ret (fallback_page title heading detected notice (join "" links) footer).

(** [handleBadge(req, res)] *)
Definition handleBadge (req : Request) (res : list call) : run (list call) :=
  try_catch_message
    (config <- parseConfigFromRequest req ;;
     svg <- of_core (generateBadge config) ;;
     send res 200 (VStr svg)
       [ ("Content-Type", VStr "image/svg+xml; charset=utf-8");
         ("Cache-Control", VStr "public, max-age=3600") ])
    (fun message =>
       send res 400 (VStr message) [ ("Content-Type", VStr "text/plain") ]).

(** [handleInstall(req, res)] *)
Definition handleInstall (req : Request) (res : list call) : run (list call) :=
  try_catch_message
    (config <- parseConfigFromRequest req ;;
     let ua := or_ (req_user_agent req) (VStr "") in
     os <- of_core (detectOS ua) ;;
     target <- of_core (getInstallTarget config os) ;;
     if available target
     then send res 302 (VStr "") [ ("Location", field (url target)) ]
     else if truthy (field (fallback target))
     then send res 302 (VStr "") [ ("Location", field (fallback target)) ]
     else
       page <- of_core (generateFallbackPage config os) ;;
       send res 200 (VStr page) [ ("Content-Type", VStr "text/html; charset=utf-8") ])
    (fun message =>
       send res 400 (VStr message) [ ("Content-Type", VStr "text/plain") ]).



End Handlers.

End Server.

(* ===================================================================== *)
(** * A reference Node *)
(* ===================================================================== *)

(** An executable instance of [Server.Node], to run the server on concrete
    requests: the pathname is the text before the first [?], the query is
    split at [&] and at the first [=] of each piece (nothing is
    percent-decoded), base64 is the standard alphabet with or without
    padding, and a byte is read as the character of its code (exact for
    ASCII text). The theorems quantify over every [Node]. *)
Module ReferenceNode.

Fixpoint before (c : ascii) (s : string) : string :=
  match s with
  | EmptyString => EmptyString
  | String x rest => if Ascii.eqb x c then EmptyString else String x (before c rest)
  end.

Fixpoint after (c : ascii) (s : string) : option string :=
  match s with
  | EmptyString => None
  | String x rest => if Ascii.eqb x c then Some rest else after c rest
  end.

Fixpoint split (c : ascii) (s cur : string) : list string :=
  match s with
  | EmptyString => [cur]
  | String x rest =>
      if Ascii.eqb x c then cur :: split c rest ""
      else split c rest (cur ++ String x EmptyString)
  end.

Definition pathname (u : string) : value := VStr (before "?" u).

Definition query (u : string) : list (string * value) :=
  match after "?" u with
  | None => []
  | Some q =>
      fold_left
        (fun acc piece =>
           match piece with
           | EmptyString => acc
           | _ =>
               set_member (before "=" piece)
                 (VStr (match after "=" piece with Some v => v | None => "" end)) acc
           end)
        (split "&" q "") []
  end.

(** The six bits of a base64 character. *)
Definition sextet (c : ascii) : N :=
  let n := N_of_ascii c in
  if Reference.between 65 90 c then n - 65
  else if Reference.between 97 122 c then n - 71
  else if Reference.between 48 57 c then n + 4
  else if Ascii.eqb c "+" then 62
  else if Ascii.eqb c "/" then 63
  else 0.

Definition byte_of (n : N) : Byte.byte := byte_of_ascii (ascii_of_N (n mod 256)).

Fixpoint base64 (s : string) : list Byte.byte :=
  match s with
  | String a (String b rest2) =>
      let b0 := byte_of (sextet a * 4 + sextet b / 16) in
      match rest2 with
      | String c rest3 =>
          if Ascii.eqb c "=" then [b0]
          else
            let b1 := byte_of (sextet b * 16 + sextet c / 4) in
            match rest3 with
            | String d rest =>
                if Ascii.eqb d "=" then [b0; b1]
                else b0 :: b1 :: byte_of (sextet c * 64 + sextet d) :: base64 rest
            | EmptyString => [b0; b1]
            end
      | EmptyString => [b0]
      end
  | _ => []
  end.

Definition node : Server.Node :=
  {| Server.url_pathname := pathname;
     Server.url_query := query;
     Server.Buffer_from_base64 := base64;
     Server.Buffer_toString_utf8 := string_of_list_byte |}.

End ReferenceNode.

(** ** Vocabulary of the server's properties *)

Module ServerSpec.

Import Server.

(** The headers [send] starts from. *)
Definition security_headers : list (string * value) :=
  [ ("X-Content-Type-Options", VStr "nosniff");
    ("Referrer-Policy", VStr "no-referrer") ].

(** The two calls of a plain-text answer with status 400. *)
Definition answer_400 (message : string) : list call :=
  [ WriteHead 400 (security_headers ++ [("Content-Type", VStr "text/plain")]);
    End (VStr message) ].

(** The two calls of a redirect to [location]. *)
Definition answer_302 (location : value) : list call :=
  [ WriteHead 302 (security_headers ++ [("Location", location)]);
    End (VStr "") ].

(** The two calls of a page served with status 200. *)
Definition answer_page (page : string) : list call :=
  [ WriteHead 200 (security_headers ++ [("Content-Type", VStr "text/html; charset=utf-8")]);
    End (VStr page) ].

(** The two calls that serve a badge: status 200, cached for an hour. *)
Definition answer_badge (svg : string) : list call :=
  [ WriteHead 200 (security_headers ++
                   [("Content-Type", VStr "image/svg+xml; charset=utf-8");
                    ("Cache-Control", VStr "public, max-age=3600")]);
    End (VStr svg) ].


(** The name the fallback page prints for a platform. *)
Definition platform_label (p : string) : string :=
  if p =? "darwin" then "macOS"
  else if p =? "linux" then "Linux"
  else if p =? "win32" then "Windows"
  else p.

(** The link the fallback page prints for an installer. *)
Definition link_of (entry : string * value) : string :=
  bquote "<a class=`btn` href=`" ++
  match snd entry with VStr u => u | _ => "" end ++
  bquote "`>Download for " ++ platform_label (fst entry) ++ "</a>".

Fixpoint concat_strings (xs : list string) : string :=
  match xs with
  | [] => ""
  | x :: rest => x ++ concat_strings rest
  end.

Section Carries.

Context {host : Host} {node : Node}.

(** The [config] parameter of a request. *)
Definition config_param (req : Request) : value :=
  member (url_query (req_url req)) "config".

(** The request carries the config [c]: its [config] parameter is a
    non-empty string that decodes to no more than [MAX_CONFIG_SIZE] bytes,
    whose text [JSON.parse] reads as [c]. *)
Definition carries (req : Request) (c : value) : Prop :=
  exists text,
    config_param req = VStr text /\ text <> "" /\
    (N.of_nat (List.length (Buffer_from_base64 text)) <= MAX_CONFIG_SIZE)%N /\
    JSON_parse (Buffer_toString_utf8 (Buffer_from_base64 text)) = inr c.

End Carries.

End ServerSpec.

(* ===================================================================== *)
(** * The command line *)
(* ===================================================================== *)

(** [bin/install-bridge.js]: the commands [init], [validate] and
    [generate], run in a working directory. The directory is a finite map
    from file names to contents, holding regular readable files only; the
    console is the list of the lines printed. The two marks the script
    puts before a message, a cross before a failure and a tick before a
    success, are characters beyond code unit 255: a line keeps the mark
    apart from the message. *)
Module Cli.

(** [const CONFIG_FILE = 'install-bridge.json';] *)
Definition CONFIG_FILE : string := "install-bridge.json".

(** [const BADGE_FILE = 'install-badge.svg';] *)
Definition BADGE_FILE : string := "install-badge.svg".

(** What the script takes from Node beyond the core's host:
    [JSON_stringify_spaces v n] is [JSON.stringify(v, null, n)], with no
    text when the result is [undefined]. *)
Class Printer : Type := {
  JSON_stringify_spaces : value -> N -> option string
}.

(** A line on the console: [console.error] of the cross and a message,
    [console.log] of the tick and a message, [console.log] of a text. *)
Inductive line : Type :=
| Failure (message : string)
| Success (message : string)
| Printed (text : string).

Record World : Type := {
  files : list (string * string);
  console : list line
}.

(** Where a piece of the script ends: it goes on with a value, the
    process exits with a code, or an exception goes uncaught. *)
Inductive step (A : Type) : Type :=
| Done (a : A)
| Exit (code : N)
| Crash.

Arguments Done {A} a.
Arguments Exit {A} code.
Arguments Crash {A}.

Definition proc (A : Type) : Type := World -> World * step A.

#[export] Instance Monad_proc : Monad proc :=
  {| ret := fun A (a : A) (w : World) => (w, Done a);
     bind := fun A B (m : proc A) (k : A -> proc B) (w : World) =>
       match m w with
       | (w', Done a) => k a w'
       | (w', Exit code) => (w', Exit code)
       | (w', Crash) => (w', Crash)
       end |}.

Fixpoint read_file (name : string) (fs : list (string * string)) : option string :=
  match fs with
  | [] => None
  | (name', content) :: rest => if name =? name' then Some content else read_file name rest
  end.

Fixpoint write_file (name content : string) (fs : list (string * string))
  : list (string * string) :=
  match fs with
  | [] => [(name, content)]
  | (name', content') :: rest =>
      if name =? name' then (name', content) :: rest
      else (name', content') :: write_file name content rest
  end.

Definition print (l : line) : proc unit :=
  fun w => ({| files := files w; console := console w ++ [l] |}, Done tt).

(** [process.exit(code)] *)
Definition exit {A : Type} (code : N) : proc A :=
  fun w => (w, Exit code).

(** A call into the core; nothing in the script catches what it throws. *)
Definition of_core {A : Type} (m : outcome A) : proc A :=
  fun w => (w, match m with Ok a => Done a | _ => Crash end).

(** [fs.existsSync(name)] *)
Definition existsSync (name : string) : proc bool :=
  fun w => (w, Done (match read_file name (files w) with Some _ => true | None => false end)).

(** [fs.readFileSync(name, 'utf8')] *)
Definition readFileSync (name : string) : proc string :=
  fun w => (w, match read_file name (files w) with Some content => Done content | None => Crash end).

(** [fs.writeFileSync(name, content, 'utf8')] *)
Definition writeFileSync (name content : string) : proc unit :=
  fun w => ({| files := write_file name content (files w); console := console w |}, Done tt).

(** [fail(message)] *)
Definition fail {A : Type} (message : string) : proc A :=
  print (Failure message) ;;
  exit 1.

(** [log(message)] *)
Definition log (message : string) : proc unit :=
  print (Success message).

Section Commands.

Context {host : Host} {printer : Printer}.

(** [readConfig()]: [path.resolve(process.cwd(), CONFIG_FILE)] names
    [CONFIG_FILE] in the working directory. *)
Definition readConfig : proc value :=
  let configPath := CONFIG_FILE in
  present <- existsSync configPath ;;
  (if negb present
   then fail ("Missing " ++ CONFIG_FILE ++ " in current directory")
   else ret tt) ;;
  content <- readFileSync configPath ;;
  result <- of_core (parseConfig content) ;;
  (if negb (success result)
   then
     match parse_errors result with
     | Some errors => fail ("Invalid config:
- " ++ Server.join "
- " errors)
     | None => of_core Beyond
     end
   else ret tt) ;;
  ret (Server.field (config result)).

(** [writeBadge(svg)] *)
Definition writeBadge (svg : string) : proc unit :=
  writeFileSync BADGE_FILE svg ;;
  log ("Generated " ++ BADGE_FILE).

(** [printSnippets(snippets)] *)
Definition printSnippets (snippets : Snippets) : proc unit :=
  print (Printed "
--- Markdown ---
") ;;
  print (Printed (markdown snippets)) ;;
  print (Printed "
--- HTML ---
") ;;
  print (Printed (html snippets)).

(** [cmdInit()], [argv3] being [process.argv[3]]. *)
Definition cmdInit (argv3 : value) : proc unit :=
  let appName := or_ argv3 (VStr "MyApp") in
  present <- existsSync CONFIG_FILE ;;
  (if present then fail (CONFIG_FILE ++ " already exists") else ret tt) ;;
  template <- of_core (createTemplate appName) ;;
  text <- match JSON_stringify_spaces template 2 with
          | Some text => ret text
          | None => of_core Beyond
          end ;;
  writeFileSync CONFIG_FILE text ;;
  log ("Created " ++ CONFIG_FILE).

(** [cmdValidate()] *)
Definition cmdValidate : proc unit :=
  config <- readConfig ;;
  result <- of_core (validateConfig config) ;;
  (if negb (valid result)
   then fail ("Config invalid:
- " ++ Server.join "
- " (errors result))
   else ret tt) ;;
  log "Config is valid".

(** [cmdGenerate()] *)
Definition cmdGenerate : proc unit :=
  config <- readConfig ;;
  svg <- of_core (generateBadge config) ;;
  writeBadge svg ;;
  snippets <- of_core (generateSnippets config VUndefined VUndefined) ;;
  printSnippets snippets.

Definition usage : string := "
Install Bridge

Usage:
  install-bridge init [AppName]   Create install-bridge.json
  install-bridge validate         Validate configuration
  install-bridge generate         Generate badge and snippets

Files:
  - install-bridge.json
  - install-badge.svg
".

(** The entry: [switch (command)] on [process.argv[2]]. *)
Definition main (argv2 argv3 : value) : proc unit :=
  let command := argv2 in
  if strict_eq_str command "init" then cmdInit argv3
  else if strict_eq_str command "validate" then cmdValidate
  else if strict_eq_str command "generate" then cmdGenerate
  else
    print (Printed usage) ;;
    exit 0.

End Commands.

End Cli.

(** ** Vocabulary of the command line's properties *)

Module CliSpec.

Import Cli.

(** The world after some lines are printed. *)
Definition says (w : World) (lines : list line) : World :=
  {| files := files w; console := console w ++ lines |}.

(** The world after a file is written. *)
Definition stores (w : World) (name content : string) : World :=
  {| files := write_file name content (files w); console := console w |}.

End CliSpec.

(** ** A reference printer *)

(** An executable instance of [Cli.Printer], to run the commands on
    concrete directories: [JSON.stringify] with an indentation of [n]
    spaces (ten at most), one member or item per line, [{}] and [[]] for
    what is empty. The theorems quantify over every [Printer]. *)
Module ReferencePrinter.

Fixpoint spaces (n : nat) : string :=
  match n with
  | O => ""
  | S n' => String " " (spaces n')
  end.

Definition newline : string := "
".

Definition block (opening closing indent gap : string) (parts : list string) : string :=
  match parts with
  | [] => opening ++ closing
  | _ =>
      opening ++ newline ++ indent ++ gap ++
      Reference.join ("," ++ newline ++ indent ++ gap) parts ++
      newline ++ indent ++ closing
  end.

Fixpoint pretty (gap indent : string) (v : value) : option string :=
  match v with
  | VArr items =>
      Some (block "[" "]" indent gap
              (map (fun item =>
                      match pretty gap (indent ++ gap) item with
                      | Some t => t
                      | None => "null"
                      end) items))
  | VObj props =>
      Some (block "{" "}" indent gap
              (flat_map (fun kv =>
                           match pretty gap (indent ++ gap) (snd kv) with
                           | Some t => [Reference.quote (fst kv) ++ ": " ++ t]
                           | None => []
                           end) props))
  | other => Reference.stringify other
  end.

Definition stringify_spaces (v : value) (n : N) : option string :=
  match n with
  | 0%N => Reference.stringify v
  | _ => pretty (spaces (N.to_nat (N.min n 10))) "" v
  end.

Definition printer : Cli.Printer :=
  {| Cli.JSON_stringify_spaces := stringify_spaces |}.

End ReferencePrinter.

(** ** Test requests and directories *)

Definition linux_agent : string := "Mozilla/5.0 (X11; Linux x86_64)".

(** [test_config] in base64. *)
Definition test_config_base64 : string :=
  "eyJuYW1lIjoiVGVzdEFwcCIsImluc3RhbGxlcnMiOnsibGludXgiOiJodHRwczovL2V4YW1wbGUuY29tL2xpbnV4IiwiZGFyd2luIjoiaHR0cHM6Ly9leGFtcGxlLmNvbS9tYWMifX0=".

(** A config whose only installer is for the platform [windows], with a
    URL that is none, in base64. *)
Definition invalid_config_base64 : string :=
  "eyJuYW1lIjoiVGVzdEFwcCIsImluc3RhbGxlcnMiOnsid2luZG93cyI6Im5vcGUifX0=".

Definition install_request : Server.Request :=
  {| Server.req_method := "GET";
     Server.req_url := "/install?config=" ++ test_config_base64;
     Server.req_user_agent := VStr linux_agent |}.

Definition badge_request : Server.Request :=
  {| Server.req_method := "GET";
     Server.req_url := "/badge.svg?config=" ++ test_config_base64;
     Server.req_user_agent := VUndefined |}.

Definition invalid_request : Server.Request :=
  {| Server.req_method := "GET";
     Server.req_url := "/install?config=" ++ invalid_config_base64;
     Server.req_user_agent := VStr linux_agent |}.

Definition bare_request : Server.Request :=
  {| Server.req_method := "GET";
     Server.req_url := "/install";
     Server.req_user_agent := VUndefined |}.

Fixpoint repeat_string (s : string) (n : nat) : string :=
  match n with
  | O => ""
  | S n' => s ++ repeat_string s n'
  end.

(** A request whose parameter decodes to 9000 bytes. *)
Definition large_request : Server.Request :=
  {| Server.req_method := "GET";
     Server.req_url := "/install?config=" ++ repeat_string "AAAA" 3000;
     Server.req_user_agent := VUndefined |}.

Definition empty_world : Cli.World :=
  {| Cli.files := []; Cli.console := [] |}.

(* ===================================================================== *)
(** * Properties *)
(* ===================================================================== *)

(** ** Strings: [includes] is substring containment *)

Lemma append_assoc (a b c : string) : (a ++ b) ++ c = a ++ b ++ c.
Proof. induction a as [|x a IH]; simpl; [reflexivity | now rewrite IH]. Qed.

Lemma append_empty_r (a : string) : a ++ "" = a.
Proof. induction a as [|x a IH]; simpl; [reflexivity | now rewrite IH]. Qed.

Lemma prefix_app (t s : string) : prefix t (t ++ s) = true.
Proof.
  induction t as [|c t IH]; simpl.
  - now destruct s.
  - destruct (ascii_dec c c) as [_|n]; [exact IH | now destruct n].
Qed.

Lemma prefix_app_l (t s b : string) : prefix t s = true -> prefix t (s ++ b) = true.
Proof.
  revert s; induction t as [|c t IH]; intros s H.
  - now destruct (s ++ b).
  - destruct s as [|c' s]; simpl in *; [discriminate|].
    destruct (ascii_dec c c'); [now apply IH | discriminate].
Qed.

Lemma prefix_split (t s : string) : prefix t s = true -> exists post, s = t ++ post.
Proof.
  revert s; induction t as [|c t IH]; intros s H.
  - now exists s.
  - destruct s as [|c' s]; simpl in H; [discriminate|].
    destruct (ascii_dec c c') as [->|]; [|discriminate].
    destruct (IH _ H) as [post ->]. now exists post.
Qed.

Lemma includes_unfold (s t : string) :
  includes s t =
  prefix t s || match s with EmptyString => false | String _ s' => includes s' t end.
Proof. now destruct s. Qed.

Lemma includes_here (t s : string) : includes (t ++ s) t = true.
Proof. rewrite includes_unfold, prefix_app. reflexivity. Qed.

Lemma includes_refl (s : string) : includes s s = true.
Proof. rewrite <- (append_empty_r s) at 1. apply includes_here. Qed.

Lemma includes_app_r (a s t : string) :
  includes s t = true -> includes (a ++ s) t = true.
Proof.
  intros H; induction a as [|c a IH]; simpl; [exact H|].
  rewrite IH. apply orb_true_r.
Qed.

Lemma includes_app_l (s b t : string) :
  includes s t = true -> includes (s ++ b) t = true.
Proof.
  induction s as [|c s IH]; intros H.
  - simpl in H. rewrite orb_false_r in H.
    destruct t; [|discriminate]. rewrite includes_unfold. now destruct (EmptyString ++ b).
  - rewrite includes_unfold in H. apply orb_true_iff in H as [H|H].
    + rewrite includes_unfold. now rewrite (prefix_app_l _ _ b H).
    + change (String c s ++ b) with (String c (s ++ b)).
      rewrite includes_unfold, (IH H). apply orb_true_r.
Qed.

Lemma includes_spec (s t : string) :
  includes s t = true <-> exists pre post, s = pre ++ t ++ post.
Proof.
  split.
  - induction s as [|c s IH]; intros H; rewrite includes_unfold in H;
      apply orb_true_iff in H as [H|H]; try discriminate.
    + destruct (prefix_split _ _ H) as [post E]. now exists "", post.
    + destruct (prefix_split _ _ H) as [post E]. now exists "", post.
    + destruct (IH H) as (pre & post & ->). now exists (String c pre), post.
  - intros (pre & post & ->). apply includes_app_r, includes_here.
Qed.

(** Finds the segment of a concatenation that is the substring looked for. *)
Ltac find_substring :=
  repeat first [ apply includes_here | apply includes_refl | apply includes_app_r ].

Lemma toLowerCase_empty (s : string) : toLowerCase s = "" -> s = "".
Proof. destruct s; [reflexivity | discriminate]. Qed.

Lemma toLowerCase_app (a b : string) :
  toLowerCase (a ++ b) = toLowerCase a ++ toLowerCase b.
Proof. induction a as [|c a IH]; simpl; [reflexivity | now rewrite IH]. Qed.

Lemma includes_toLowerCase (s t : string) :
  includes s t = true -> includes (toLowerCase s) (toLowerCase t) = true.
Proof.
  intros H. apply includes_spec in H as (pre & post & ->).
  rewrite !toLowerCase_app. apply includes_app_r, includes_here.
Qed.

(** ** The OS detector *)

(** C2. [detectOS] is total on strings, [null] and [undefined]: it returns
    one of [darwin], [linux], [win32], [unknown] and never throws; [null],
    a missing argument and the empty string give [unknown]; a string is
    classified by substring tests on its lower-cased text, in the order
    mac/darwin/iphone/ipad, then linux/android, then win, the first match
    winning; the tests are blind to case: the result depends on the
    lower-cased text alone, and a word occurring in the text in any case
    is found in lower case; and since [darwin] is tested first, a text
    containing [darwin] (which then contains [win] as well) is classified
    [darwin]. *)
Theorem detectOS_total_priority : forall s : string,
  let ua := toLowerCase s in
  let mac := includes ua "mac" || includes ua "darwin" ||
             includes ua "iphone" || includes ua "ipad" in
  let lin := includes ua "linux" || includes ua "android" in
  let win := includes ua "win" in
  detectOS VNull = Ok "unknown" /\
  detectOS VUndefined = Ok "unknown" /\
  detectOS (VStr "") = Ok "unknown" /\
  (exists os,
      detectOS (VStr s) = Ok os /\
      In os ["darwin"; "linux"; "win32"; "unknown"] /\
      (os = "darwin" <-> mac = true) /\
      (os = "linux" <-> mac = false /\ lin = true) /\
      (os = "win32" <-> mac = false /\ lin = false /\ win = true) /\
      (os = "unknown" <-> mac = false /\ lin = false /\ win = false)) /\
  (forall s', toLowerCase s' = ua -> detectOS (VStr s') = detectOS (VStr s)) /\
  (forall word, includes s word = true -> includes ua (toLowerCase word) = true) /\
  (includes ua "darwin" = true ->
   includes ua "win" = true /\ detectOS (VStr s) = Ok "darwin").
Proof.
  intros s ua mac lin win.
  assert (Hrun : detectOS (VStr s) =
                 Ok (if mac then "darwin" else if lin then "linux"
                     else if win then "win32" else "unknown")).
  { unfold detectOS. destruct s as [|c s].
    - reflexivity.
    - cbn -[includes toLowerCase]. fold ua. fold mac. fold lin. fold win.
      destruct mac, lin, win; reflexivity. }
  repeat split; try reflexivity.
  - exists (if mac then "darwin" else if lin then "linux"
            else if win then "win32" else "unknown").
    split; [exact Hrun|].
    destruct mac, lin, win; simpl; repeat split;
      intros; try tauto; try discriminate;
      repeat match goal with H : _ /\ _ |- _ => destruct H end; try discriminate.
  - intros s' Hs'. rewrite Hrun. unfold detectOS.
    destruct s' as [|c' s'].
    + simpl in Hs'. symmetry in Hs'. subst ua.
      apply toLowerCase_empty in Hs'. subst s. reflexivity.
    + cbn -[includes toLowerCase]. rewrite Hs'. fold mac. fold lin. fold win.
      destruct mac, lin, win; reflexivity.
  - intros word Hword. now apply includes_toLowerCase.
  - apply includes_spec in H as (pre & post & E).
    apply includes_spec. exists (pre ++ "dar"), post.
    rewrite E, append_assoc. reflexivity.
  - rewrite Hrun. subst mac. rewrite H. rewrite orb_true_r. reflexivity.
Qed.

(** ** Property reads *)

Lemma assoc_in_keys (k : string) (props : list (string * value)) :
  In k (map fst props) -> exists v, assoc k props = Some v.
Proof.
  induction props as [|[k' v'] rest IH]; simpl; [tauto|].
  intros [->|H].
  - rewrite String.eqb_refl. now exists v'.
  - destruct (k =? k'); [now exists v' | now apply IH].
Qed.

Lemma assoc_not_in_keys (k : string) (props : list (string * value)) :
  ~ In k (map fst props) -> assoc k props = None.
Proof.
  induction props as [|[k' v'] rest IH]; simpl; [reflexivity|].
  intros H. destruct (String.eqb_spec k k') as [->|_]; [tauto|].
  apply IH. tauto.
Qed.

Lemma assoc_app_skip (k : string) (before after : list (string * value)) :
  ~ In k (map fst before) -> assoc k (before ++ after) = assoc k after.
Proof.
  induction before as [|[k' v'] rest IH]; simpl; [reflexivity|].
  intros H. destruct (String.eqb_spec k k') as [->|_]; [tauto|].
  apply IH. tauto.
Qed.

Lemma get_prop_own_key (v : value) (k : string) :
  non_null_object v = true -> In k (map fst (own_props v)) ->
  get_prop v k = Ok (own_value v k).
Proof.
  unfold own_value. intros Hobj Hin.
  destruct (assoc_in_keys _ _ Hin) as [x Hx].
  destruct v; try discriminate; simpl in *; try tauto.
  - now rewrite Hx.
  - unfold member. now rewrite Hx.
Qed.

Lemma get_prop_core_field (v : value) (k : string) :
  non_null_object v = true -> In k core_fields ->
  exists x, get_prop v k = Ok x.
Proof.
  intros Hobj Hin. destruct v; try discriminate; unfold get_prop; cbn [own_props].
  - destruct (assoc k (indexed_from 0 items)); [eauto|].
    assert (E : existsb (String.eqb k) core_fields = true).
    { apply existsb_exists. exists k. split; [exact Hin | apply String.eqb_refl]. }
    rewrite E. eauto.
  - eauto.
  - eauto.
Qed.

(** ** The validator *)

Section ValidatorFacts.

Context {host : Host}.

Lemma result_of_valid (es : list string) : valid (result_of es) = true <-> es = [].
Proof. destruct es; simpl; split; intros; congruence. Qed.

Lemma check_platform_own (inst : value) (errs : list string) (k : string) :
  non_null_object inst = true -> In k (map fst (own_props inst)) ->
  check_platform inst errs k = Ok (errs ++ key_errors (k, own_value inst k))%list.
Proof.
  intros Hobj Hin. unfold check_platform.
  rewrite (get_prop_own_key _ _ Hobj Hin). cbn [bind ret Monad_outcome].
  unfold key_errors, platform_errors, url_errors, push. cbn [fst snd].
  destruct (existsb (String.eqb k) PLATFORM_ORDER), (isValidURL (own_value inst k));
    cbn [negb app]; rewrite ?app_nil_r, <- ?app_assoc; reflexivity.
Qed.

Lemma forEach_check_platform (inst : value) (keys : list string) :
  non_null_object inst = true ->
  (forall k, In k keys -> In k (map fst (own_props inst))) ->
  forall errs,
    forEach keys (check_platform inst) errs =
    Ok (errs ++ flat_map (fun k => key_errors (k, own_value inst k)) keys)%list.
Proof.
  intros Hobj. induction keys as [|k keys IH]; intros Hkeys errs.
  - simpl. now rewrite app_nil_r.
  - cbn [forEach]. rewrite check_platform_own by (auto; apply Hkeys; now left).
    cbn [bind Monad_outcome]. rewrite IH by (intros; apply Hkeys; now right).
    cbn [flat_map]. now rewrite app_assoc.
Qed.

(** With pairwise distinct keys, reading each key back gives its entry. *)
Lemma flat_map_own_entries (before props : list (string * value)) :
  NoDup (map fst (before ++ props)) ->
  flat_map (fun k => key_errors (k, match assoc k (before ++ props) with
                                    | Some x => x
                                    | None => VUndefined
                                    end)) (map fst props) =
  flat_map key_errors props.
Proof.
  revert before. induction props as [|[k v] rest IH]; intros before Hnd; [reflexivity|].
  cbn [map fst flat_map].
  assert (Hk : ~ In k (map fst before)).
  { rewrite map_app in Hnd. cbn [map fst] in Hnd.
    apply NoDup_remove_2 in Hnd. intros Hin. apply Hnd, in_or_app. now left. }
  rewrite (assoc_app_skip _ _ _ Hk). cbn [assoc]. rewrite String.eqb_refl.
  f_equal.
  specialize (IH (before ++ [(k, v)])%list).
  rewrite <- app_assoc in IH. cbn [app] in IH. now apply IH.
Qed.

(** What [validateConfig] computes on a non-null object. *)
Lemma validateConfig_object (c : value) :
  non_null_object c = true ->
  exists name inst,
    get_prop c "name" = Ok name /\
    get_prop c "installers" = Ok inst /\
    validateConfig c =
    Ok (result_of (name_errors name ++
                   (if non_null_object inst
                    then (match own_props inst with
                          | [] => ["at least one installer platform must be specified"]
                          | _ :: _ => []
                          end) ++
                         flat_map (fun k => key_errors (k, own_value inst k))
                           (map fst (own_props inst))
                    else ["installers is required and must be an object"]))%list).
Proof.
  intros Hobj.
  destruct (get_prop_core_field c "name" Hobj) as [name Hname]; [simpl; tauto|].
  destruct (get_prop_core_field c "installers" Hobj) as [inst Hinst];
    [simpl; tauto|].
  exists name, inst. split; [exact Hname|]. split; [exact Hinst|].
  unfold validateConfig.
  assert (Hgate : negb (truthy c) || negb (typeof c =? "object") = false)
    by (destruct c; try discriminate; reflexivity).
  rewrite Hgate, Hname. cbn [bind Monad_outcome]. rewrite Hinst.
  cbn [bind Monad_outcome].
  assert (Hn : (if negb (truthy name) || negb (typeof name =? "string")
                then push [] "name is required and must be a string"
                else []) = name_errors name).
  { destruct name as [| |b|x|s| | | |]; try reflexivity.
    - now destruct b.
    - cbn. now rewrite orb_true_r.
    - now destruct s. }
  rewrite Hn.
  assert (Hi : negb (truthy inst) || negb (typeof inst =? "object") =
               negb (non_null_object inst)).
  { destruct inst as [| |b|x|s| | | |]; try reflexivity.
    - now destruct b.
    - cbn. now rewrite orb_true_r.
    - cbn. now rewrite orb_true_r. }
  rewrite Hi. destruct (non_null_object inst) eqn:Hio; cbn [negb].
  - assert (Hkeys : Object_keys inst = Ok (map fst (own_props inst)))
      by (destruct inst; try discriminate; reflexivity).
    rewrite Hkeys. cbn [bind ret Monad_outcome].
    rewrite forEach_check_platform by auto. cbn [bind ret Monad_outcome].
    unfold result_of, push.
    destruct (own_props inst) as [|e l]; cbn [map List.length Nat.eqb app];
      rewrite <- ?app_assoc; reflexivity.
  - reflexivity.
Qed.

Lemma validateConfig_not_object (c : value) :
  non_null_object c = false ->
  validateConfig c = Ok {| valid := false; errors := ["Config must be an object"] |}.
Proof.
  intros H. unfold validateConfig.
  destruct c as [| |b|x|s| | | |]; try discriminate; try reflexivity.
  - now destruct b.
  - cbn. now rewrite orb_true_r.
  - cbn. now rewrite orb_true_r.
Qed.

(** [validateConfig] returns on every value. *)
Lemma validateConfig_total (c : value) : exists r, validateConfig c = Ok r.
Proof.
  destruct (non_null_object c) eqn:H.
  - destruct (validateConfig_object c H) as (name & inst & _ & _ & E). eauto.
  - rewrite (validateConfig_not_object c H). eauto.
Qed.

End ValidatorFacts.

Lemma assoc_set_member_other (k k' : string) (v : value) (props : list (string * value)) :
  k' <> k -> assoc k' (set_member k v props) = assoc k' props.
Proof.
  intros Hne. induction props as [|[k0 v0] rest IH]; simpl.
  - destruct (String.eqb_spec k' k); [contradiction | reflexivity].
  - destruct (String.eqb_spec k k0) as [->|Hk]; simpl.
    + destruct (String.eqb_spec k' k0); [contradiction | reflexivity].
    + destruct (k' =? k0); [reflexivity | exact IH].
Qed.

Lemma member_set_member_other (k k' : string) (v : value) (props : list (string * value)) :
  k' <> k -> member (set_member k v props) k' = member props k'.
Proof. intros H. unfold member. now rewrite assoc_set_member_other. Qed.

Section ValidatorTheorems.

Context {host : Host}.

(** C3. A candidate that is not a non-null object gets exactly
    [{valid: false, errors: ["Config must be an object"]}], the single
    error and nothing else; on a non-null object [validateConfig] returns
    a result whose [valid] is true if and only if its error list is
    empty. *)
Theorem validateConfig_object_gate : forall candidate : value,
  (non_null_object candidate = false ->
   validateConfig candidate =
   Ok {| valid := false; errors := ["Config must be an object"] |}) /\
  (non_null_object candidate = true ->
   exists r, validateConfig candidate = Ok r /\
             (valid r = true <-> errors r = [])).
Proof.
  intros candidate. split; intros H.
  - now apply validateConfig_not_object.
  - destruct (validateConfig_object candidate H) as (name & inst & _ & _ & E).
    rewrite E. eexists. split; [reflexivity|]. apply result_of_valid.
Qed.

(** C4. On a config whose [installers] is a non-empty mapping, the error
    list is the name error (if any) followed, entry by entry in the
    mapping's key order, by the errors of that entry's two checks, each
    made whatever the other found. An entry whose key is outside
    [darwin], [win32], [linux] and whose value is not a valid URL
    contributes exactly two errors, the invalid-platform one then the
    invalid-URL one, between the errors of the entries before it and
    those of the entries after it, which are checked all the same. *)
Theorem validateConfig_per_key_errors :
  forall (config name : value) (entries : list (string * value)),
  non_null_object config = true ->
  get_prop config "name" = Ok name ->
  get_prop config "installers" = Ok (VObj entries) ->
  entries <> [] ->
  NoDup (map fst entries) ->
  exists r,
    validateConfig config = Ok r /\
    errors r = (name_errors name ++ flat_map key_errors entries)%list /\
    forall before after k v,
      entries = (before ++ (k, v) :: after)%list ->
      ~ In k PLATFORM_ORDER ->
      isValidURL v = false ->
      key_errors (k, v) = [invalid_platform_error k; invalid_url_error k] /\
      valid r = false /\
      errors r = (name_errors name ++ flat_map key_errors before ++
                  [invalid_platform_error k; invalid_url_error k] ++
                  flat_map key_errors after)%list.
Proof.
  intros config name entries Hobj Hname Hinst Hne Hnd.
  destruct (validateConfig_object config Hobj) as (name' & inst & Hn' & Hi' & E).
  rewrite Hname in Hn'. rewrite Hinst in Hi'.
  injection Hn' as <-. injection Hi' as <-.
  cbn [non_null_object own_props] in E.
  assert (Hflat : flat_map (fun k => key_errors (k, own_value (VObj entries) k))
                    (map fst entries) = flat_map key_errors entries)
    by (apply (flat_map_own_entries [] entries); exact Hnd).
  rewrite Hflat in E.
  assert (Hhead : match entries with
                  | [] => ["at least one installer platform must be specified"]
                  | _ :: _ => []
                  end = @nil string) by (destruct entries; [contradiction | reflexivity]).
  rewrite Hhead in E. cbn [app] in E.
  eexists. split; [exact E|]. split; [reflexivity|].
  intros before after k v -> Hk Hv.
  assert (Hkey : key_errors (k, v) = [invalid_platform_error k; invalid_url_error k]).
  { unfold key_errors, platform_errors, url_errors. cbn [fst snd]. rewrite Hv.
    destruct (existsb (String.eqb k) PLATFORM_ORDER) eqn:Hex; [|reflexivity].
    apply existsb_exists in Hex as (x & Hin & Hx).
    apply String.eqb_eq in Hx. subst x. contradiction. }
  assert (Herr : (name_errors name ++ flat_map key_errors (before ++ (k, v) :: after) =
                  name_errors name ++ flat_map key_errors before ++
                  [invalid_platform_error k; invalid_url_error k] ++
                  flat_map key_errors after)%list).
  { rewrite flat_map_app. cbn [flat_map]. now rewrite Hkey. }
  split; [exact Hkey|]. split; [|exact Herr].
  cbn [valid result_of errors]. rewrite Herr.
  rewrite !length_app. cbn [List.length].
  apply Nat.eqb_neq. lia.
Qed.

(** C9. Only [name] and [installers] are read: two non-null objects that
    agree on these two fields get the same validation result, whatever
    else they hold. In particular, assigning arbitrary values to
    [homepage], [fallback] and [badge] of a config leaves its validation
    result as it was, [valid: true] included. *)
Theorem validateConfig_noninterference : forall c1 c2 : value,
  non_null_object c1 = true ->
  non_null_object c2 = true ->
  get_prop c1 "name" = get_prop c2 "name" ->
  get_prop c1 "installers" = get_prop c2 "installers" ->
  validateConfig c1 = validateConfig c2 /\
  forall (props : list (string * value)) (h f b : value),
    c1 = VObj props ->
    validateConfig
      (VObj (set_member "homepage" h
               (set_member "fallback" f (set_member "badge" b props)))) =
    validateConfig c1.
Proof.
  assert (Hagree : forall c1 c2 : value,
             non_null_object c1 = true -> non_null_object c2 = true ->
             get_prop c1 "name" = get_prop c2 "name" ->
             get_prop c1 "installers" = get_prop c2 "installers" ->
             validateConfig c1 = validateConfig c2).
  { intros c1 c2 H1 H2 Hn Hi.
    destruct (validateConfig_object c1 H1) as (n1 & i1 & Hn1 & Hi1 & E1).
    destruct (validateConfig_object c2 H2) as (n2 & i2 & Hn2 & Hi2 & E2).
    rewrite Hn1, Hn2 in Hn. rewrite Hi1, Hi2 in Hi.
    injection Hn as ->. injection Hi as ->. now rewrite E1, E2. }
  intros c1 c2 H1 H2 Hn Hi. split; [now apply Hagree|].
  intros props h f b ->. apply Hagree; try reflexivity;
    cbn [get_prop]; f_equal;
    rewrite !member_set_member_other; try reflexivity; discriminate.
Qed.

End ValidatorTheorems.

(** ** The target resolver *)

Lemma installers_read (config : list (string * value)) (p : string) :
  installers_mapping_or_absent config ->
  get_prop (or_ (member config "installers") (VObj [])) p =
  Ok (member (installers_of config) p).
Proof.
  unfold installers_of. intros [H|[entries H]]; rewrite H; reflexivity.
Qed.

Lemma getInstallTarget_run (config : list (string * value)) (p : string) :
  installers_mapping_or_absent config ->
  getInstallTarget (VObj config) p =
  Ok (if truthy (member (installers_of config) p)
      then {| available := true; platform := p;
              url := Some (member (installers_of config) p); fallback := None |}
      else {| available := false; platform := p; url := None;
              fallback := Some (first_truthy
                                  [member config "fallback"; member config "homepage"]) |}).
Proof.
  intros Hinst.
  unfold getInstallTarget. cbn [get_prop bind ret Monad_outcome].
  rewrite (installers_read config p Hinst).
  cbn [bind ret Monad_outcome first_truthy]. unfold or_.
  destruct (truthy (member (installers_of config) p)); cbn [negb]; [reflexivity|].
  destruct (truthy (member config "fallback")); [reflexivity|].
  cbn [bind ret Monad_outcome].
  destruct (truthy (member config "homepage")); reflexivity.
Qed.

(** C1 (amended). On a config object whose [installers] is a mapping or
    absent, and for every platform string [p], [getInstallTarget] returns
    without raising. The result is [{available: true, platform: p, url:
    installers[p]}], with no [fallback] field, if and only if
    [installers[p]] reads as a truthy value; otherwise it is [{available:
    false, platform: p, fallback: config.fallback || config.homepage ||
    null}], with no [url] field: [fallback] and [homepage] are each passed
    over when falsy (absent, [null], the empty string), and the field is
    [null] when neither is truthy. *)
Theorem getInstallTarget_truthy :
  forall (config : list (string * value)) (p : string),
  installers_mapping_or_absent config ->
  let v := member (installers_of config) p in
  exists t,
    getInstallTarget (VObj config) p = Ok t /\
    platform t = p /\
    (available t = true <-> truthy v = true) /\
    (available t = true -> url t = Some v /\ fallback t = None) /\
    (available t = false ->
     url t = None /\
     fallback t = Some (first_truthy [member config "fallback"; member config "homepage"])).
Proof.
  intros config p Hinst v.
  rewrite (getInstallTarget_run config p Hinst). fold v.
  eexists. split; [reflexivity|].
  destruct (truthy v); cbn [available platform url fallback];
    repeat split; intros; try reflexivity; try discriminate.
Qed.

(** C1, as stated, fails: with [fallback: ""] and a homepage configured,
    the specification's [??] keeps the empty string as the fallback, and
    the code's [||] passes over it and returns the homepage. *)
Lemma getInstallTarget_nullish_counterexample :
  let config :=
    [ ("name", VStr "X");
      ("installers", VObj [("darwin", VStr "https://a/b")]);
      ("fallback", VStr "");
      ("homepage", VStr "https://h") ] in
  getInstallTarget (VObj config) "win32" =
    Ok {| available := false; platform := "win32"; url := None;
          fallback := Some (VStr "https://h") |} /\
  getInstallTarget_spec config "win32" =
    {| available := false; platform := "win32"; url := None;
       fallback := Some (VStr "") |} /\
  getInstallTarget (VObj config) "win32" <> Ok (getInstallTarget_spec config "win32").
Proof.
  cbv zeta. repeat split. discriminate.
Qed.

(** Where the specification's wording and the code agree: when [p] is an
    own key of [installers] holding a truthy value, or no key of it and no
    member of [Object.prototype], and [fallback] and [homepage] are each
    absent or truthy. *)
Lemma getInstallTarget_meets_spec :
  forall (config : list (string * value)) (p : string),
  installers_mapping_or_absent config ->
  (assoc p (installers_of config) = None -> inherited p = VUndefined) ->
  (forall u, assoc p (installers_of config) = Some u -> truthy u = true) ->
  (forall f, In f ["fallback"; "homepage"] ->
             member config f = VUndefined \/ truthy (member config f) = true) ->
  getInstallTarget (VObj config) p = Ok (getInstallTarget_spec config p).
Proof.
  intros config p Hinst Hnone Hsome Hfb.
  rewrite (getInstallTarget_run config p Hinst).
  unfold getInstallTarget_spec.
  assert (E : match assoc "installers" config with
              | Some (VObj props) => props
              | _ => []
              end = installers_of config).
  { unfold installers_of, member.
    destruct (assoc "installers" config) as [x|]; reflexivity. }
  rewrite E.
  assert (Em : member (installers_of config) p =
               match assoc p (installers_of config) with
               | Some x => x
               | None => inherited p
               end) by reflexivity.
  rewrite Em. clear Em.
  destruct (assoc p (installers_of config)) as [u|] eqn:Hp.
  - now rewrite (Hsome u eq_refl).
  - rewrite (Hnone eq_refl). cbn [truthy first_truthy].
    do 3 f_equal.
    destruct (Hfb "fallback") as [Hf|Hf]; [simpl; tauto| |];
      (destruct (Hfb "homepage") as [Hh|Hh]; [simpl; tauto| |]);
      rewrite ?Hf, ?Hh; cbn [truthy nullish_or]; try reflexivity.
    + destruct (member config "homepage"); try discriminate; reflexivity.
    + destruct (member config "fallback"); try discriminate; reflexivity.
    + destruct (member config "fallback"); try discriminate; reflexivity.
Qed.

(** ** The snippet generator *)

Lemma first_in_order_run (entries : list (string * value)) (order : list string) :
  first_in_order (VObj entries) order =
  Ok (match first_truthy (map (member entries) order) with
      | VNull => if existsb truthy (map (member entries) order)
                 then Some VNull else None
      | v => Some v
      end).
Proof.
  induction order as [|k order IH]; [reflexivity|].
  cbn [first_in_order get_prop bind ret Monad_outcome map first_truthy existsb].
  destruct (truthy (member entries k)) eqn:Hk.
  - cbn [orb]. destruct (member entries k); try reflexivity; discriminate.
  - cbn [orb]. exact IH.
Qed.

Lemma first_truthy_found (vs : list value) :
  existsb truthy vs = true -> truthy (first_truthy vs) = true.
Proof.
  induction vs as [|v vs IH]; [discriminate|].
  cbn [existsb first_truthy]. destruct (truthy v) eqn:Hv; [now rewrite Hv | exact IH].
Qed.

Lemma first_truthy_none (vs : list value) :
  existsb truthy vs = false -> first_truthy vs = VNull.
Proof.
  induction vs as [|v vs IH]; [reflexivity|].
  cbn [existsb first_truthy]. destruct (truthy v); [discriminate | exact IH].
Qed.

Lemma first_truthy_app (xs ys : list value) :
  first_truthy (xs ++ ys) =
  if existsb truthy xs then first_truthy xs else first_truthy ys.
Proof.
  induction xs as [|x xs IH]; [reflexivity|].
  cbn [app first_truthy existsb]. destruct (truthy x); [reflexivity | exact IH].
Qed.

Lemma getFirstInstaller_run (config : list (string * value)) :
  installers_mapping_or_absent config ->
  getFirstInstaller (member config "installers") =
  Ok (first_truthy (map (member (installers_of config)) PLATFORM_ORDER ++
                    [nth 0 (map snd (installers_of config)) VUndefined])).
Proof.
  intros Hinst. unfold getFirstInstaller, installers_of.
  assert (E : default_param (member config "installers") (VObj []) =
              VObj (match member config "installers" with
                    | VObj entries => entries
                    | _ => []
                    end))
    by (destruct Hinst as [H|[entries H]]; rewrite H; reflexivity).
  rewrite E. set (entries := match member config "installers" with
                             | VObj e => e
                             | _ => []
                             end).
  rewrite first_in_order_run. cbn [bind ret Monad_outcome].
  rewrite first_truthy_app.
  destruct (existsb truthy (map (member entries) PLATFORM_ORDER)) eqn:Hex.
  - pose proof (first_truthy_found _ Hex) as Ht.
    destruct (first_truthy (map (member entries) PLATFORM_ORDER));
      try reflexivity; discriminate.
  - rewrite (first_truthy_none _ Hex). reflexivity.
Qed.

Lemma generateSnippets_run
  (config : list (string * value)) (badgePath installURL : value)
  (nameS pathS urlS : string) :
  installers_mapping_or_absent config ->
  to_string (member config "name") = Ok nameS ->
  to_string (default_param badgePath (VStr "./install-badge.svg")) = Ok pathS ->
  to_string (snippet_target config installURL) = Ok urlS ->
  generateSnippets (VObj config) badgePath installURL =
  Ok {| markdown := "[![Install " ++ nameS ++ "](" ++ pathS ++ ")](" ++ urlS ++ ")";
        html := dquote "<a href='" ++ urlS ++ dquote "'>
  <img src='" ++ pathS ++ dquote "' alt='Install " ++ nameS ++ dquote "' />
</a>" |}.
Proof.
  intros Hinst Hname Hpath Hurl. unfold generateSnippets.
  assert (Htarget :
            (if truthy (default_param installURL VNull)
             then ret (default_param installURL VNull)
             else
               homepage <- get_prop (VObj config) "homepage" ;;
               if truthy homepage then ret homepage
               else
                 installers <- get_prop (VObj config) "installers" ;;
                 getFirstInstaller installers) =
            Ok (snippet_target config installURL)).
  { unfold snippet_target. cbn [app first_truthy get_prop bind ret Monad_outcome].
    destruct (truthy (default_param installURL VNull)); [reflexivity|].
    destruct (truthy (member config "homepage")); [reflexivity|].
    apply (getFirstInstaller_run config Hinst). }
  rewrite Htarget. cbn [get_prop bind ret Monad_outcome].
  rewrite Hname. cbn [bind ret Monad_outcome].
  rewrite Hpath. cbn [bind ret Monad_outcome].
  rewrite Hurl. reflexivity.
Qed.

(** C5. [generateSnippets] links to the first of these that is given (is
    truthy): the [installURL] argument, [config.homepage], the installers
    of [darwin], [win32], [linux] in this order, the first value of the
    [installers] map; and to [null] when none is. With [nameS], [pathS],
    [urlS] the texts of [config.name], the badge path and that target, the
    markdown is [[![Install nameS](pathS)](urlS)] and so contains
    [[![Install nameS]]; the html links to [urlS]. In particular, with no
    [installURL] and no homepage, a config holding installers for both
    [darwin] and [linux] links to the [darwin] one, whatever their order
    in the map. *)
Theorem generateSnippets_target_order :
  forall (config : list (string * value)) (badgePath installURL : value)
         (nameS pathS urlS : string),
  installers_mapping_or_absent config ->
  to_string (member config "name") = Ok nameS ->
  to_string (default_param badgePath (VStr "./install-badge.svg")) = Ok pathS ->
  to_string (snippet_target config installURL) = Ok urlS ->
  exists sn,
    generateSnippets (VObj config) badgePath installURL = Ok sn /\
    markdown sn = "[![Install " ++ nameS ++ "](" ++ pathS ++ ")](" ++ urlS ++ ")" /\
    includes (markdown sn) ("[![Install " ++ nameS ++ "]") = true /\
    includes (html sn) (dquote "<a href='" ++ urlS ++ dquote "'>") = true /\
    (forall d l : string,
        default_param installURL VNull = VNull ->
        member config "homepage" = VUndefined ->
        assoc "darwin" (installers_of config) = Some (VStr d) ->
        assoc "linux" (installers_of config) = Some (VStr l) ->
        d <> "" ->
        urlS = d /\ includes (markdown sn) ("](" ++ d ++ ")") = true).
Proof.
  intros config badgePath installURL nameS pathS urlS Hinst Hname Hpath Hurl.
  rewrite (generateSnippets_run _ _ _ _ _ _ Hinst Hname Hpath Hurl).
  eexists. split; [reflexivity|]. cbn [markdown html].
  split; [reflexivity|]. split.
  { replace ("[![Install " ++ nameS ++ "](" ++ pathS ++ ")](" ++ urlS ++ ")")
      with (("[![Install " ++ nameS ++ "]") ++ "(" ++ pathS ++ ")](" ++ urlS ++ ")")
      by (rewrite !append_assoc; reflexivity).
    apply includes_here. }
  split.
  { replace (dquote "<a href='" ++ urlS ++ dquote "'>
  <img src='" ++ pathS ++ dquote "' alt='Install " ++ nameS ++ dquote "' />
</a>")
      with ((dquote "<a href='" ++ urlS ++ dquote "'>") ++ dquote "
  <img src='" ++ pathS ++ dquote "' alt='Install " ++ nameS ++ dquote "' />
</a>")
      by (rewrite !append_assoc; reflexivity).
    apply includes_here. }
  intros d l Hiu Hhome Hd Hl Hne.
  assert (Ht : snippet_target config installURL = VStr d).
  { assert (Hm : member (installers_of config) "darwin" = VStr d)
      by (unfold member; now rewrite Hd).
    unfold snippet_target. rewrite Hiu, Hhome.
    cbn [app first_truthy truthy map PLATFORM_ORDER]. rewrite Hm. cbn [truthy].
    destruct (String.eqb_spec d ""); [contradiction | reflexivity]. }
  rewrite Ht in Hurl. injection Hurl as <-. split; [reflexivity|].
  do 4 apply includes_app_r.
  change (")](" ++ d ++ ")") with (")" ++ ("](" ++ d ++ ")")).
  apply includes_app_r, includes_refl.
Qed.

(** C10. Called without [installURL] on a config object with no homepage
    and an empty or absent [installers] map, [generateSnippets] resolves
    the target to [null] and prints it as the four characters [null]: the
    markdown ends with [](null)] and the html contains [href="null"]. *)
Theorem generateSnippets_null_target :
  forall (config : list (string * value)) (badgePath : value) (nameS pathS : string),
  to_string (member config "name") = Ok nameS ->
  to_string (default_param badgePath (VStr "./install-badge.svg")) = Ok pathS ->
  member config "homepage" = VUndefined ->
  member config "installers" = VUndefined \/ member config "installers" = VObj [] ->
  snippet_target config VUndefined = VNull /\
  exists sn,
    generateSnippets (VObj config) badgePath VUndefined = Ok sn /\
    ends_with (markdown sn) "](null)" /\
    includes (html sn) (dquote "href='null'") = true.
Proof.
  intros config badgePath nameS pathS Hname Hpath Hhome Hinst.
  assert (Hmap : installers_mapping_or_absent config)
    by (destruct Hinst as [H|H]; [now left | right; now exists []]).
  assert (Ht : snippet_target config VUndefined = VNull).
  { unfold snippet_target, installers_of. rewrite Hhome.
    destruct Hinst as [H|H]; rewrite H; reflexivity. }
  split; [exact Ht|].
  assert (Hurl : to_string (snippet_target config VUndefined) = Ok "null")
    by now rewrite Ht.
  rewrite (generateSnippets_run _ _ _ _ _ _ Hmap Hname Hpath Hurl).
  eexists. split; [reflexivity|]. cbn [markdown html]. split.
  - exists ("[![Install " ++ nameS ++ "](" ++ pathS ++ ")").
    rewrite !append_assoc. reflexivity.
  - change (dquote "<a href='") with ("<a " ++ dquote "href='").
    rewrite append_assoc. apply includes_app_r.
    change (dquote "href='null'") with (dquote "href='" ++ "null" ++ dquote "'").
    change (dquote "'>
  <img src='") with (dquote "'" ++ dquote ">
  <img src='").
    rewrite !append_assoc.
    replace (dquote "href='" ++ "null" ++ dquote "'" ++ dquote ">
  <img src='" ++ pathS ++ dquote "' alt='Install " ++ nameS ++ dquote "' />
</a>") with ((dquote "href='" ++ "null" ++ dquote "'") ++ dquote ">
  <img src='" ++ pathS ++ dquote "' alt='Install " ++ nameS ++ dquote "' />
</a>") by (rewrite !append_assoc; reflexivity).
    apply includes_here.
Qed.

(** ** The badge renderer *)

Lemma prefix_app_both (a x y : string) : prefix (a ++ x) (a ++ y) = prefix x y.
Proof.
  induction a as [|c a IH]; simpl; [reflexivity|].
  destruct (ascii_dec c c) as [_|n]; [exact IH | now destruct n].
Qed.

Lemma setting_or (field : value) (default s : string) :
  setting field default = Some s -> or_ field (VStr default) = VStr s.
Proof.
  destruct field as [| | | |t| | | |]; try discriminate.
  - intros [= ->]. reflexivity.
  - destruct t; intros [= <-]; reflexivity.
Qed.

Lemma badge_read (config : list (string * value)) (k : string) :
  badge_mapping_or_absent config ->
  get_prop (or_ (member config "badge") (VObj [])) k =
  Ok (member (badge_of config) k).
Proof.
  unfold badge_of, or_. intros [H|[fields H]].
  - rewrite H. destruct (member config "badge"); try discriminate; reflexivity.
  - rewrite H. reflexivity.
Qed.

(** C7. For a config object whose [name] is a string and whose badge
    settings are text where present, [generateBadge] returns the SVG of
    the layout its style selects, computed from [labelWidth = len(label) *
    6 + 10], [nameWidth = len(name) * 7 + 10] and [totalWidth = labelWidth
    + nameWidth], where the label is the configured one or [Install], the
    color the configured one or [#0366d6], the style the configured one
    or [flat]. The SVG opens with a tag whose [width] is [totalWidth], and
    contains [<svg], the label, the app name and the color as literal
    substrings. *)
Theorem generateBadge_widths_and_content :
  forall (config : list (string * value)) (name label color style : string),
  member config "name" = VStr name ->
  badge_mapping_or_absent config ->
  setting (member (badge_of config) "label") "Install" = Some label ->
  setting (member (badge_of config) "color") "#0366d6" = Some color ->
  setting (member (badge_of config) "style") "flat" = Some style ->
  let labelWidth := (str_length label * 6 + 10)%N in
  let nameWidth := (str_length name * 7 + 10)%N in
  let totalWidth := (labelWidth + nameWidth)%N in
  exists svg,
    generateBadge (VObj config) = Ok svg /\
    svg = (if style =? "flat"
           then flat_badge label name color labelWidth nameWidth totalWidth
           else plain_badge label name color labelWidth nameWidth totalWidth) /\
    prefix (svg_open_tag totalWidth) svg = true /\
    includes svg "<svg" = true /\
    includes svg label = true /\
    includes svg name = true /\
    includes svg color = true.
Proof.
  intros config name label color style Hname Hbadge Hlabel Hcolor Hstyle
         labelWidth nameWidth totalWidth.
  assert (Hrun : generateBadge (VObj config) =
                 Ok (if style =? "flat"
                     then flat_badge label name color labelWidth nameWidth totalWidth
                     else plain_badge label name color labelWidth nameWidth totalWidth)).
  { unfold generateBadge.
    change (b <- get_prop (VObj config) "badge" ;; ret (or_ b (VObj [])))
      with (Ok (or_ (member config "badge") (VObj []))).
    cbn [bind ret Monad_outcome].
    rewrite !(badge_read config _ Hbadge). cbn [bind ret Monad_outcome get_prop].
    rewrite (setting_or _ _ _ Hlabel), (setting_or _ _ _ Hcolor),
      (setting_or _ _ _ Hstyle), Hname.
    cbn [length_of to_string strict_eq_str bind ret Monad_outcome].
    fold labelWidth. fold nameWidth. fold totalWidth.
    destruct (style =? "flat"); reflexivity. }
  rewrite Hrun. eexists. split; [reflexivity|]. split; [reflexivity|].
  destruct (style =? "flat").
  - unfold flat_badge, svg_open_tag. split; [|split; [|split; [|split]]].
    + rewrite !prefix_app_both. apply prefix_app_l. reflexivity.
    + apply includes_app_l. reflexivity.
    + find_substring.
    + find_substring.
    + find_substring.
  - unfold plain_badge, svg_open_tag. split; [|split; [|split; [|split]]].
    + rewrite !prefix_app_both. apply prefix_app_l. reflexivity.
    + apply includes_app_l. reflexivity.
    + find_substring.
    + find_substring.
    + find_substring.
Qed.

(** ** The template builder and the parser *)

Section HostTheorems.

Context {host : Host}.

(** A config naming one URL that parses for each platform is valid. *)
Lemma validateConfig_three_platforms (name d w l : string) (others : list (string * value)) :
  name <> "" ->
  isValidURL (VStr d) = true ->
  isValidURL (VStr w) = true ->
  isValidURL (VStr l) = true ->
  validateConfig
    (VObj (("name", VStr name) ::
           ("installers", VObj [("darwin", VStr d); ("win32", VStr w); ("linux", VStr l)]) ::
           others)) =
  Ok {| valid := true; errors := [] |}.
Proof.
  intros Hne Hd Hw Hl.
  match goal with |- validateConfig ?c = _ =>
    destruct (validateConfig_object c eq_refl) as (n & inst & Hn & Hi & E)
  end.
  injection Hn as <-. injection Hi as <-. rewrite E.
  unfold result_of, key_errors, url_errors.
  cbn [member assoc String.eqb Ascii.eqb Bool.eqb own_props map fst snd flat_map
       non_null_object own_value].
  rewrite Hd, Hw, Hl.
  destruct name; [contradiction | reflexivity].
Qed.

(** C8. For every non-empty string [appName], on a host whose URL parser
    accepts, as the URL Standard has it, every text that starts with
    [https://github.com/] (past the host the parser has no failure left,
    whatever the path holds), [createTemplate(appName)] is a config that
    [validateConfig] finds valid with no error: its [name] is [appName],
    its [installers] has one URL for each of [darwin], [win32], [linux],
    embedding [appName] and accepted by [isValidURL], and it has a
    homepage, a fallback and the default badge settings. *)
Theorem createTemplate_valid : forall appName : string,
  appName <> "" ->
  (forall rest, URL_parses ("https://github.com/" ++ rest) = true) ->
  exists template installers,
    createTemplate (VStr appName) = Ok (VObj template) /\
    validateConfig (VObj template) = Ok {| valid := true; errors := [] |} /\
    member template "name" = VStr appName /\
    member template "installers" = VObj installers /\
    map fst installers = PLATFORM_ORDER /\
    (forall p, In p PLATFORM_ORDER ->
               exists u, member installers p = VStr u /\
                         isValidURL (VStr u) = true /\
                         includes u appName = true) /\
    member template "homepage" = VStr "https://github.com/user/repo" /\
    member template "fallback" = VStr "https://github.com/user/repo/releases" /\
    member template "badge" =
      VObj [("label", VStr "Install"); ("color", VStr "#0366d6"); ("style", VStr "flat")].
Proof.
  intros appName Hne Hurl.
  assert (Hvalid : forall suffix,
             isValidURL (VStr ("https://github.com/user/repo/releases/latest/download/"
                               ++ appName ++ suffix)) = true).
  { intros suffix. cbn [isValidURL].
    exact (Hurl ("user/repo/releases/latest/download/" ++ appName ++ suffix)). }
  unfold createTemplate. cbn [default_param to_string bind ret Monad_outcome].
  eexists. eexists. split; [reflexivity|]. split.
  { apply validateConfig_three_platforms; [exact Hne | apply Hvalid ..]. }
  repeat split.
  intros p Hp. cbn [PLATFORM_ORDER In] in Hp.
  destruct Hp as [<-|[<-|[<-|[]]]]; eexists;
    (split; [reflexivity|]); (split; [apply Hvalid|]); find_substring.
Qed.


End HostTheorems.

(* ===================================================================== *)
(** * The theorems at concrete inputs *)
(* ===================================================================== *)

Lemma detectOS_total_priority_witness :
  includes (toLowerCase "Darwin/21.6.0") "win" = true /\
  detectOS (VStr "Darwin/21.6.0") = Ok "darwin".
Proof.
  apply (detectOS_total_priority "Darwin/21.6.0"). reflexivity.
Defined.

Lemma validateConfig_object_gate_witness :
  validateConfig (host := Reference.host) (VStr "config") =
    Ok {| valid := false; errors := ["Config must be an object"] |} /\
  exists r, validateConfig (host := Reference.host) (VObj test_config) = Ok r /\
            (valid r = true <-> errors r = []).
Proof.
  split.
  - apply (validateConfig_object_gate (host := Reference.host) (VStr "config")).
    reflexivity.
  - apply (validateConfig_object_gate (host := Reference.host) (VObj test_config)).
    reflexivity.
Defined.

Lemma validateConfig_per_key_errors_witness :
  exists r,
    validateConfig (host := Reference.host) (VObj windows_config) = Ok r /\
    valid r = false /\
    errors r = [ "invalid platform: windows (must be darwin, win32, or linux)";
                 "installer for windows must be a valid HTTP(S) URL" ].
Proof.
  destruct (validateConfig_per_key_errors (host := Reference.host)
              (VObj windows_config) (VStr "TestApp")
              [ ("windows", VStr "not a url");
                ("darwin", VStr "https://example.com/app.dmg") ])
    as (r & Hr & He & Hkey).
  - reflexivity.
  - reflexivity.
  - reflexivity.
  - discriminate.
  - repeat constructor; simpl; intuition discriminate.
  - exists r. split; [exact Hr|].
    destruct (Hkey [] [("darwin", VStr "https://example.com/app.dmg")]
                "windows" (VStr "not a url")) as (_ & Hv & _).
    + reflexivity.
    + simpl; intuition discriminate.
    + reflexivity.
    + split; [exact Hv|]. rewrite He. reflexivity.
Defined.

Lemma validateConfig_noninterference_witness :
  validateConfig (host := Reference.host) (VObj test_config) =
  validateConfig (host := Reference.host)
    (VObj (test_config ++ [ ("homepage", VStr "not a url");
                            ("fallback", VNum 42);
                            ("badge", VArr [VBool true]) ])).
Proof.
  apply (validateConfig_noninterference (host := Reference.host));
    reflexivity.
Defined.

Lemma getInstallTarget_truthy_witness :
  exists t,
    getInstallTarget (VObj bare_config) "darwin" = Ok t /\
    platform t = "darwin" /\
    (available t = true <-> truthy (member (installers_of bare_config) "darwin") = true) /\
    (available t = true ->
     url t = Some (member (installers_of bare_config) "darwin") /\ fallback t = None) /\
    (available t = false ->
     url t = None /\
     fallback t = Some (first_truthy [member bare_config "fallback";
                                      member bare_config "homepage"])).
Proof.
  apply (getInstallTarget_truthy bare_config "darwin"). left. reflexivity.
Defined.

Lemma generateSnippets_target_order_witness :
  exists sn,
    generateSnippets (VObj test_config) VUndefined VUndefined = Ok sn /\
    markdown sn =
      "[![Install TestApp](./install-badge.svg)](https://example.com/mac)".
Proof.
  destruct (generateSnippets_target_order test_config VUndefined VUndefined
              "TestApp" "./install-badge.svg" "https://example.com/mac")
    as (sn & Hsn & Hmd & _).
  - right. eexists. reflexivity.
  - reflexivity.
  - reflexivity.
  - reflexivity.
  - exists sn. split; [exact Hsn | exact Hmd].
Defined.

Lemma generateSnippets_null_target_witness :
  snippet_target bare_config VUndefined = VNull /\
  exists sn,
    generateSnippets (VObj bare_config) VUndefined VUndefined = Ok sn /\
    ends_with (markdown sn) "](null)" /\
    includes (html sn) (dquote "href='null'") = true.
Proof.
  apply (generateSnippets_null_target bare_config VUndefined
           "TestApp" "./install-badge.svg").
  - reflexivity.
  - reflexivity.
  - reflexivity.
  - left. reflexivity.
Defined.

Lemma generateBadge_widths_and_content_witness :
  exists svg,
    generateBadge (VObj badge_config) = Ok svg /\
    prefix (svg_open_tag 117) svg = true /\
    includes svg "Download" = true /\
    includes svg "TestApp" = true /\
    includes svg "#ff0000" = true.
Proof.
  destruct (generateBadge_widths_and_content badge_config
              "TestApp" "Download" "#ff0000" "flat")
    as (svg & Hsvg & _ & Hw & _ & Hl & Hn & Hc).
  - reflexivity.
  - right. eexists. reflexivity.
  - reflexivity.
  - reflexivity.
  - reflexivity.
  - exists svg. repeat split; assumption.
Defined.

Lemma createTemplate_valid_witness :
  exists template,
    createTemplate (VStr "My App") = Ok (VObj template) /\
    validateConfig (host := Reference.host) (VObj template) =
    Ok {| valid := true; errors := [] |}.
Proof.
  destruct (createTemplate_valid (host := Reference.host) "My App")
    as (template & installers & Ht & Hv & _).
  - discriminate.
  - intros rest. reflexivity.
  - exists template. split; [exact Ht | exact Hv].
Defined.


(* ===================================================================== *)
(** * Further properties of the core *)
(* ===================================================================== *)

(** ** Array indices are no field names *)

Lemma decimal_head (n : N) :
  exists c rest, decimal n = String c rest /\ Reference.is_digit c = true.
Proof.
  unfold decimal, NilZero.string_of_uint.
  destruct (N.to_uint n); simpl; eauto.
Qed.

Lemma indexed_from_keys (items : list value) (i : N) (k : string) :
  In k (map fst (indexed_from i items)) -> exists j, k = decimal j.
Proof.
  revert i. induction items as [|v items IH]; intros i; simpl; [tauto|].
  intros [<-|H]; [eauto | eapply IH; eauto].
Qed.

Lemma decimal_not_platform (j : N) : ~ In (decimal j) PLATFORM_ORDER.
Proof.
  destruct (decimal_head j) as (c & rest & E & Hc). rewrite E.
  intros [H|[H|[H|[]]]]; injection H as <- _; discriminate Hc.
Qed.

Lemma array_has_no_name (items : list value) (k : string) :
  In k core_fields -> assoc k (indexed_from 0 items) = None.
Proof.
  intros Hk. destruct (assoc k (indexed_from 0 items)) as [x|] eqn:E; [|reflexivity].
  assert (Hin : In k (map fst (indexed_from 0 items))).
  { clear Hk. revert E. generalize 0%N.
    induction items as [|y items IH]; intros i; simpl; [discriminate|].
    destruct (String.eqb_spec k (decimal i)) as [->|_]; [now left|].
    intros H. right. eapply IH; eauto. }
  destruct (indexed_from_keys _ _ _ Hin) as [j ->].
  destruct (decimal_head j) as (c & rest & Ej & Hc). rewrite Ej in Hk.
  simpl in Hk.
  repeat (destruct Hk as [Hk|Hk]; [injection Hk as <- _; discriminate Hc|]).
  contradiction.
Qed.

Lemma flat_map_nil_iff {A B : Type} (f : A -> list B) (l : list A) :
  flat_map f l = [] <-> forall x, In x l -> f x = [].
Proof.
  induction l as [|a l IH]; simpl.
  - split; [tauto | reflexivity].
  - split.
    + intros H. apply app_eq_nil in H as [Ha Hl].
      intros x [<-|Hx]; [exact Ha | now apply IH].
    + intros H. rewrite (H a) by now left. apply IH. intros x Hx. apply H. now right.
Qed.

Lemma in_platform_order (k : string) :
  existsb (String.eqb k) PLATFORM_ORDER = true <-> In k PLATFORM_ORDER.
Proof.
  rewrite existsb_exists. split.
  - intros (x & Hin & Hx). apply String.eqb_eq in Hx. now subst.
  - intros H. exists k. split; [exact H | apply String.eqb_refl].
Qed.

Section AcceptedFacts.

Context {host : Host}.

Lemma key_errors_nil (k : string) (v : value) :
  key_errors (k, v) = [] <->
  In k PLATFORM_ORDER /\ exists u, v = VStr u /\ URL_parses u = true.
Proof.
  unfold key_errors, platform_errors, url_errors. cbn [fst snd]. split.
  - intros H. apply app_eq_nil in H as [Hp Hu]. split.
    + apply in_platform_order.
      destruct (existsb (String.eqb k) PLATFORM_ORDER); [reflexivity | discriminate].
    + destruct (isValidURL v) eqn:Hv; [|discriminate].
      destruct v as [| | | |u| | | |]; try discriminate. eauto.
  - intros (Hp & u & -> & Hu). apply in_platform_order in Hp. rewrite Hp.
    cbn [isValidURL]. now rewrite Hu.
Qed.

Lemma valid_then_accepted (c : value) (r : ValidationResult) :
  validateConfig c = Ok r -> valid r = true -> accepted c.
Proof.
  intros Hr Hv. destruct (non_null_object c) eqn:Hobj.
  2:{ rewrite (validateConfig_not_object c Hobj) in Hr. injection Hr as <-.
      discriminate Hv. }
  destruct (validateConfig_object c Hobj) as (nm & inst & Hnm & Hinst & E).
  rewrite E in Hr. injection Hr as <-. apply result_of_valid in Hv.
  apply app_eq_nil in Hv as [Hname Hrest].
  destruct nm as [| | | |name| | | |]; try discriminate Hname.
  destruct name as [|ch name]; [discriminate Hname|].
  destruct (non_null_object inst) eqn:Hio; [|discriminate Hrest].
  apply app_eq_nil in Hrest as [Hhead Hkeys].
  destruct (own_props inst) as [|e0 es] eqn:Hown; [discriminate Hhead|].
  rewrite flat_map_nil_iff in Hkeys.
  assert (Hfields : exists fields, c = VObj fields).
  { destruct c; try discriminate Hobj; [|eauto|discriminate Hnm].
    unfold get_prop in Hnm. cbn [own_props] in Hnm.
    rewrite (array_has_no_name items "name") in Hnm by (simpl; tauto).
    discriminate Hnm. }
  destruct Hfields as [fields ->].
  assert (Hentries : exists entries, inst = VObj entries).
  { destruct inst; try discriminate Hio; [|eauto|discriminate Hown].
    exfalso. cbn [own_props] in Hown.
    assert (Hin : In (fst e0) (map fst (indexed_from 0 items)))
      by (rewrite Hown; now left).
    assert (Hk : In (fst e0) PLATFORM_ORDER).
    { rewrite Hown in Hin. apply Hkeys in Hin. now apply key_errors_nil in Hin. }
    destruct (indexed_from_keys _ _ _ Hin) as [j Hj]. rewrite Hj in Hk.
    exact (decimal_not_platform j Hk). }
  destruct Hentries as [entries ->]. cbn [own_props] in Hown. subst entries.
  cbn [get_prop] in Hnm, Hinst. injection Hnm as Hnm. injection Hinst as Hinst.
  exists fields, (String ch name), (e0 :: es).
  repeat split; try assumption; try discriminate.
  - pose proof (Hkeys k H) as Hke. now apply key_errors_nil in Hke.
  - pose proof (Hkeys k H) as Hke.
    apply key_errors_nil in Hke as [_ (u & Hu & Hok)].
    unfold own_value in Hu. cbn [own_props] in Hu.
    destruct (assoc_in_keys _ _ H) as [x Hx]. rewrite Hx in Hu. subst x. eauto.
Qed.

Lemma accepted_then_valid (c : value) :
  accepted c -> validateConfig c = Ok {| valid := true; errors := [] |}.
Proof.
  intros (fields & name & entries & -> & Hname & Hne & Hinst' & Hnon & Hall).
  destruct (validateConfig_object (VObj fields) eq_refl)
    as (nm & inst & Hnm & Hinst & E).
  cbn [get_prop] in Hnm, Hinst. injection Hnm as <-. injection Hinst as <-.
  rewrite E, Hname, Hinst'. cbn [non_null_object own_props].
  destruct name; [contradiction|]. cbn [name_errors app].
  destruct entries as [|e0 es]; [contradiction|]. cbn [app].
  assert (Hflat : flat_map (fun k => key_errors (k, own_value (VObj (e0 :: es)) k))
                    (map fst (e0 :: es)) = []).
  { apply flat_map_nil_iff. intros k Hk. apply key_errors_nil.
    destruct (Hall k Hk) as (Hp & u & Hu & Hok). split; [exact Hp|].
    exists u. unfold own_value. cbn [own_props]. now rewrite Hu. }
  rewrite Hflat. reflexivity.
Qed.

(** X1. [validateConfig] returns on every value, and finds it valid
    exactly when it is an object whose [name] is a non-empty string and
    whose [installers] is a non-empty mapping from platform names of
    [PLATFORM_ORDER] to strings the URL parser accepts; a valid result
    has no error. *)
Theorem validateConfig_accepts_exactly : forall c : value,
  exists r,
    validateConfig c = Ok r /\
    (valid r = true <-> accepted c) /\
    (valid r = true -> errors r = []).
Proof.
  intros c. destruct (validateConfig_total c) as [r Hr]. exists r.
  split; [exact Hr|]. split; [split|].
  - now apply valid_then_accepted.
  - intros Hacc. rewrite (accepted_then_valid c Hacc) in Hr. now injection Hr as <-.
  - intros Hv. pose proof (valid_then_accepted c r Hr Hv) as Hacc.
    rewrite (accepted_then_valid c Hacc) in Hr. now injection Hr as <-.
Qed.

End AcceptedFacts.

Lemma detectOS_string (s : string) :
  detectOS (VStr s) =
  Ok (let ua := toLowerCase s in
      if includes ua "mac" || includes ua "darwin" ||
         includes ua "iphone" || includes ua "ipad" then "darwin"
      else if includes ua "linux" || includes ua "android" then "linux"
      else if includes ua "win" then "win32"
      else "unknown").
Proof.
  unfold detectOS. destruct s as [|c s]; [reflexivity|].
  cbn -[includes toLowerCase].
  destruct (includes _ "mac" || includes _ "darwin" ||
            includes _ "iphone" || includes _ "ipad");
    [reflexivity|].
  destruct (includes _ "linux" || includes _ "android"); [reflexivity|].
  destruct (includes _ "win"); reflexivity.
Qed.

Lemma detectOS_range (s : string) :
  exists os, detectOS (VStr s) = Ok os /\
             In os ["darwin"; "linux"; "win32"; "unknown"].
Proof.
  rewrite detectOS_string. eexists. split; [reflexivity|]. cbv zeta.
  destruct (includes _ "mac" || includes _ "darwin" ||
            includes _ "iphone" || includes _ "ipad");
    [simpl; tauto|].
  destruct (includes _ "linux" || includes _ "android"); [simpl; tauto|].
  destruct (includes _ "win"); simpl; tauto.
Qed.

Lemma assoc_some_in_keys (k : string) (props : list (string * value)) (v : value) :
  assoc k props = Some v -> In k (map fst props).
Proof.
  induction props as [|[k' v'] rest IH]; simpl; [discriminate|].
  destruct (String.eqb_spec k k') as [->|_]; [now left | intros H; right; auto].
Qed.

Lemma assoc_permutation (k : string) (e1 e2 : list (string * value)) :
  NoDup (map fst e1) -> Permutation e1 e2 -> assoc k e1 = assoc k e2.
Proof.
  intros Hnd Hp. induction Hp as [|[k0 v0] l l' Hp IH|[k0 v0] [k1 v1] l|l l' l'' H1 IH1 H2 IH2].
  - reflexivity.
  - simpl. destruct (k =? k0); [reflexivity|]. apply IH.
    simpl in Hnd. now apply NoDup_cons_iff in Hnd.
  - simpl. destruct (String.eqb_spec k k1) as [E1|_];
      destruct (String.eqb_spec k k0) as [E0|_]; try reflexivity.
    subst k1 k0. simpl in Hnd. apply NoDup_cons_iff in Hnd as [Hin _].
    exfalso. apply Hin. now left.
  - rewrite IH1 by assumption. apply IH2.
    eapply Permutation_NoDup; [|exact Hnd]. now apply Permutation_map.
Qed.

Section CoreCompositions.

Context {host : Host}.

Lemma invalid_has_errors (c : value) (r : ValidationResult) :
  validateConfig c = Ok r -> valid r = false -> exists e es, errors r = e :: es.
Proof.
  intros Hr Hv. destruct (errors r) as [|e es] eqn:He; [|eauto].
  exfalso. assert (Ht : valid r = true); [|congruence].
  destruct (non_null_object c) eqn:Hobj.
  - destruct (validateConfig_object c Hobj) as (nm & inst & _ & _ & E).
    rewrite E in Hr. injection Hr as <-. now apply result_of_valid.
  - rewrite (validateConfig_not_object c Hobj) in Hr. injection Hr as <-.
    discriminate He.
Qed.

Lemma parseConfig_total (text : string) : exists result, parseConfig text = Ok result.
Proof.
  unfold parseConfig.
  destruct (JSON_parse text) as [message|c]; [eexists; reflexivity|].
  cbn [bind ret Monad_outcome].
  destruct (validateConfig_total c) as [r Hr]. rewrite Hr.
  cbn [bind ret Monad_outcome].
  destruct (valid r); eexists; reflexivity.
Qed.

Lemma parseConfig_success (text : string) (result : ParseResult) :
  parseConfig text = Ok result -> success result = true ->
  parse_errors result = None /\
  exists c, config result = Some c /\ JSON_parse text = inr c /\ accepted c.
Proof.
  unfold parseConfig.
  destruct (JSON_parse text) as [message|c].
  - intros [= <-]. discriminate.
  - cbn [bind ret Monad_outcome].
    destruct (validateConfig_total c) as [r Hr]. rewrite Hr.
    cbn [bind ret Monad_outcome try_catch].
    destruct (valid r) eqn:Hv; cbn [negb]; intros [= <-]; [|discriminate].
    intros _. split; [reflexivity|]. exists c.
    split; [reflexivity|]. split; [reflexivity|].
    eapply valid_then_accepted; eauto.
Qed.

Lemma parseConfig_failure (text : string) (result : ParseResult) :
  parseConfig text = Ok result -> success result = false ->
  config result = None /\ exists e es, parse_errors result = Some (e :: es).
Proof.
  unfold parseConfig.
  destruct (JSON_parse text) as [message|c].
  - intros [= <-] _. split; [reflexivity|]. cbn [parse_errors]. eauto.
  - cbn [bind ret Monad_outcome].
    destruct (validateConfig_total c) as [r Hr]. rewrite Hr.
    cbn [bind ret Monad_outcome try_catch].
    destruct (valid r) eqn:Hv; cbn [negb]; intros [= <-]; [discriminate|].
    intros _. split; [reflexivity|]. cbn [parse_errors].
    destruct (invalid_has_errors c r Hr Hv) as (e & es & ->). eauto.
Qed.

(** X2. [parseConfig] returns on every text one of two shapes: a success
    whose config is what [JSON.parse] read and which [validateConfig]
    finds valid with no error, and no [errors] field; or a failure with
    no config and at least one error. *)
Theorem parseConfig_sound : forall text : string,
  exists result,
    parseConfig text = Ok result /\
    (success result = true ->
     parse_errors result = None /\
     exists c, config result = Some c /\ JSON_parse text = inr c /\
               validateConfig c = Ok {| valid := true; errors := [] |}) /\
    (success result = false ->
     config result = None /\
     exists e es, parse_errors result = Some (e :: es)).
Proof.
  intros text. destruct (parseConfig_total text) as [result Hr].
  exists result. split; [exact Hr|]. split.
  - intros Hs. destruct (parseConfig_success text result Hr Hs)
      as (He & c & Hc & Hp & Hacc).
    split; [exact He|]. exists c.
    split; [exact Hc|]. split; [exact Hp|]. now apply accepted_then_valid.
  - intros Hs. exact (parseConfig_failure text result Hr Hs).
Qed.

(** X3. Arrays are objects to [typeof], and still never valid: a config
    that is an array, or whose [installers] is an array (its keys are
    indices, no platform names), is found invalid. *)
Theorem validateConfig_rejects_arrays :
  forall (c : value) (items : list value) (r : ValidationResult),
  c = VArr items \/ get_prop c "installers" = Ok (VArr items) ->
  validateConfig c = Ok r ->
  valid r = false /\ errors r <> [].
Proof.
  intros c items r Harr Hr.
  assert (Hv : valid r = false).
  { destruct (valid r) eqn:Hv; [|reflexivity]. exfalso.
    destruct (valid_then_accepted c r Hr Hv)
      as (fields & name & entries & -> & _ & _ & Hinst & _).
    destruct Harr as [H|H]; [discriminate H|].
    cbn [get_prop] in H. rewrite Hinst in H. discriminate H. }
  split; [exact Hv|].
  destruct (invalid_has_errors c r Hr Hv) as (e & es & ->). discriminate.
Qed.

Lemma accepted_installer (fields : list (string * value)) (os : string) :
  accepted (VObj fields) ->
  URL_parses "" = false ->
  inherited os = VUndefined ->
  (In os (map fst (installers_of fields)) ->
   In os PLATFORM_ORDER /\
   exists u, assoc os (installers_of fields) = Some (VStr u) /\
             member (installers_of fields) os = VStr u /\
             URL_parses u = true /\ u <> "") /\
  (~ In os (map fst (installers_of fields)) ->
   member (installers_of fields) os = VUndefined).
Proof.
  intros (fields' & name & entries & [= <-] & _ & _ & Hinst & _ & Hall) Hempty Hinh.
  unfold installers_of. rewrite Hinst. split.
  - intros Hin. destruct (Hall os Hin) as (Hp & u & Hu & Hok).
    split; [exact Hp|]. exists u. unfold member. rewrite Hu.
    repeat split; try assumption. intros ->. congruence.
  - intros Hnin. unfold member. now rewrite (assoc_not_in_keys _ _ Hnin).
Qed.

Lemma accepted_mapping (fields : list (string * value)) :
  accepted (VObj fields) -> installers_mapping_or_absent fields.
Proof.
  intros (fields' & name & entries & [= <-] & _ & _ & Hinst & _). right. eauto.
Qed.

(** X4. Detection followed by resolution, as the server chains them: on a
    config [validateConfig] lets through, given that the URL parser
    rejects the empty text, [getInstallTarget(config, detectOS(ua))]
    returns for every user-agent string. The target is available exactly
    when [installers] has the detected platform as a key; then the
    platform is one of [PLATFORM_ORDER] and the URL is that entry, a
    string the URL parser accepts; an undetected platform ([unknown]) is
    never available. *)
Theorem resolve_detected_os :
  forall (fields : list (string * value)) (ua : string),
  accepted (VObj fields) ->
  URL_parses "" = false ->
  exists os t,
    detectOS (VStr ua) = Ok os /\
    getInstallTarget (VObj fields) os = Ok t /\
    platform t = os /\
    (available t = true <-> In os (map fst (installers_of fields))) /\
    (available t = true ->
     In os PLATFORM_ORDER /\
     exists u, url t = Some (VStr u) /\ URL_parses u = true /\
               assoc os (installers_of fields) = Some (VStr u)) /\
    (os = "unknown" -> available t = false).
Proof.
  intros fields ua Hacc Hempty.
  destruct (detectOS_range ua) as (os & Hos & Hrange). exists os.
  assert (Hinh : inherited os = VUndefined)
    by (simpl in Hrange; decompose [or] Hrange; subst; try reflexivity; contradiction).
  destruct (accepted_installer fields os Hacc Hempty Hinh) as [Hin Hout].
  rewrite (getInstallTarget_run fields os (accepted_mapping fields Hacc)).
  eexists. split; [exact Hos|]. split; [reflexivity|].
  destruct (in_dec string_dec os (map fst (installers_of fields))) as [Hk|Hk].
  - destruct (Hin Hk) as (Hp & u & Hu & Hm & Hok & Hne). rewrite Hm.
    assert (Ht : truthy (VStr u) = true)
      by (cbn; destruct (String.eqb_spec u ""); [contradiction | reflexivity]).
    rewrite Ht. cbn [available platform url]. repeat split; try tauto.
    + eauto.
    + intros ->. simpl in Hp. decompose [or] Hp; discriminate || contradiction.
  - rewrite (Hout Hk). cbn [truthy available platform url].
    repeat split; try tauto; try discriminate.
Qed.

Lemma first_truthy_skip (f : string -> value) (before after : list string)
  (p : string) (rest : list value) :
  (forall q, In q before -> truthy (f q) = false) ->
  truthy (f p) = true ->
  first_truthy (map f (before ++ p :: after) ++ rest) = f p.
Proof.
  intros Hb Hp. induction before as [|q before IH]; cbn [app map first_truthy].
  - now rewrite Hp.
  - rewrite (Hb q) by now left. apply IH. intros q' Hq'. apply Hb. now right.
Qed.

Lemma accepted_first_platform (fields : list (string * value)) :
  accepted (VObj fields) ->
  URL_parses "" = false ->
  exists before p after u,
    PLATFORM_ORDER = (before ++ p :: after)%list /\
    (forall q, In q before -> ~ In q (map fst (installers_of fields))) /\
    assoc p (installers_of fields) = Some (VStr u) /\
    URL_parses u = true /\ u <> "".
Proof.
  intros Hacc Hempty.
  assert (Hkey : forall q, In q PLATFORM_ORDER ->
                           In q (map fst (installers_of fields)) ->
                           exists u, assoc q (installers_of fields) = Some (VStr u) /\
                                     URL_parses u = true /\ u <> "").
  { intros q Hq Hin.
    assert (Hinh : inherited q = VUndefined)
      by (simpl in Hq; decompose [or] Hq; subst; try reflexivity; contradiction).
    destruct (accepted_installer fields q Hacc Hempty Hinh) as [H _].
    destruct (H Hin) as (_ & u & Hu & _ & Hok & Hne). eauto. }
  destruct (in_dec string_dec "darwin" (map fst (installers_of fields))) as [Hd|Hd].
  { destruct (Hkey "darwin") as (u & Hu & Hok & Hne); [simpl; tauto | exact Hd |].
    exists [], "darwin", ["win32"; "linux"], u. repeat split; try assumption.
    intros q []. }
  destruct (in_dec string_dec "win32" (map fst (installers_of fields))) as [Hw|Hw].
  { destruct (Hkey "win32") as (u & Hu & Hok & Hne); [simpl; tauto | exact Hw |].
    exists ["darwin"], "win32", ["linux"], u. repeat split; try assumption.
    intros q [<-|[]]. exact Hd. }
  destruct (in_dec string_dec "linux" (map fst (installers_of fields))) as [Hl|Hl].
  { destruct (Hkey "linux") as (u & Hu & Hok & Hne); [simpl; tauto | exact Hl |].
    exists ["darwin"; "win32"], "linux", [], u. repeat split; try assumption.
    intros q [<-|[<-|[]]]; assumption. }
  exfalso.
  destruct Hacc as (fields' & name & entries & [= <-] & _ & _ & Hinst & Hnon & Hall).
  unfold installers_of in Hd, Hw, Hl. rewrite Hinst in Hd, Hw, Hl.
  destruct entries as [|[k0 v0] es]; [contradiction|].
  destruct (Hall k0) as [Hp _]; [now left|].
  simpl in Hp. destruct Hp as [<-|[<-|[<-|[]]]];
    [apply Hd | apply Hw | apply Hl]; now left.
Qed.

(** X5. On a config [validateConfig] lets through, given that the URL
    parser rejects the empty text, [getFirstInstaller] never returns
    [null]: it returns the URL of the first of [darwin], [win32], [linux]
    that [installers] has as a key. So the snippet target is never [null]
    either, whatever [installURL] and [homepage] are. *)
Theorem getFirstInstaller_on_accepted :
  forall (fields : list (string * value)) (installURL : value),
  accepted (VObj fields) ->
  URL_parses "" = false ->
  (exists before p after u,
      PLATFORM_ORDER = (before ++ p :: after)%list /\
      (forall q, In q before -> ~ In q (map fst (installers_of fields))) /\
      assoc p (installers_of fields) = Some (VStr u) /\
      URL_parses u = true /\
      getFirstInstaller (member fields "installers") = Ok (VStr u)) /\
  truthy (snippet_target fields installURL) = true.
Proof.
  intros fields installURL Hacc Hempty.
  destruct (accepted_first_platform fields Hacc Hempty)
    as (before & p & after & u & Horder & Hbefore & Hu & Hok & Hne).
  assert (Hp : member (installers_of fields) p = VStr u)
    by (unfold member; now rewrite Hu).
  assert (Htp : truthy (member (installers_of fields) p) = true).
  { rewrite Hp. cbn. destruct (String.eqb_spec u ""); [contradiction | reflexivity]. }
  assert (Hfalsy : forall q, In q before ->
                             truthy (member (installers_of fields) q) = false).
  { intros q Hq.
    assert (Hinh : inherited q = VUndefined).
    { assert (Hin : In q PLATFORM_ORDER) by (rewrite Horder; apply in_or_app; now left).
      simpl in Hin. decompose [or] Hin; subst; try reflexivity; contradiction. }
    destruct (accepted_installer fields q Hacc Hempty Hinh) as [_ H].
    now rewrite (H (Hbefore q Hq)). }
  assert (Hfirst : forall rest,
             first_truthy (map (member (installers_of fields)) PLATFORM_ORDER ++ rest)
             = VStr u).
  { intros rest. rewrite Horder, first_truthy_skip by assumption. exact Hp. }
  split.
  - exists before, p, after, u. repeat split; try assumption.
    rewrite (getFirstInstaller_run fields (accepted_mapping fields Hacc)).
    now rewrite Hfirst.
  - unfold snippet_target. cbn [app first_truthy].
    destruct (truthy (default_param installURL VNull)) eqn:H1; [exact H1|].
    destruct (truthy (member fields "homepage")) eqn:H2; [exact H2|].
    rewrite Hfirst. cbn. destruct (String.eqb_spec u ""); [contradiction | reflexivity].
Qed.

(** X6. The choice of [getFirstInstaller] does not depend on the order of
    the keys of [installers], as long as one of [darwin], [win32],
    [linux] has a truthy installer: two mappings with the same entries in
    different orders give the same result. *)
Theorem getFirstInstaller_order_independent :
  forall (e1 e2 : list (string * value)),
  NoDup (map fst e1) ->
  Permutation e1 e2 ->
  (exists p, In p PLATFORM_ORDER /\ truthy (member e1 p) = true) ->
  getFirstInstaller (VObj e1) = getFirstInstaller (VObj e2).
Proof.
  intros e1 e2 Hnd Hperm (p & Hp & Htp).
  assert (Hsame : forall k, member e1 k = member e2 k)
    by (intros k; unfold member; now rewrite (assoc_permutation k e1 e2 Hnd Hperm)).
  assert (Hrun : forall e, getFirstInstaller (VObj e) =
                           Ok (first_truthy (map (member e) PLATFORM_ORDER ++
                                             [nth 0 (map snd e) VUndefined]))).
  { intros e.
    apply (getFirstInstaller_run [("installers", VObj e)]). right.
    exists e. reflexivity. }
  rewrite !Hrun, !first_truthy_app.
  assert (Hmap : map (member e1) PLATFORM_ORDER = map (member e2) PLATFORM_ORDER)
    by (apply map_ext; exact Hsame).
  rewrite <- Hmap.
  assert (Hex : existsb truthy (map (member e1) PLATFORM_ORDER) = true).
  { apply existsb_exists. exists (member e1 p). split; [|exact Htp].
    apply in_map. exact Hp. }
  now rewrite Hex.
Qed.

End CoreCompositions.

Lemma generateBadge_run
  (fields : list (string * value)) (label color style : string) (name : value) :
  badge_mapping_or_absent fields ->
  setting (member (badge_of fields) "label") "Install" = Some label ->
  setting (member (badge_of fields) "color") "#0366d6" = Some color ->
  setting (member (badge_of fields) "style") "flat" = Some style ->
  member fields "name" = name ->
  generateBadge (VObj fields) =
  (nameLength <- length_of name ;;
   appNameS <- to_string name ;;
   let labelWidth := (str_length label * 6 + 10)%N in
   let nameWidth := (nameLength * 7 + 10)%N in
   ret (if style =? "flat"
        then flat_badge label appNameS color labelWidth nameWidth (labelWidth + nameWidth)
        else plain_badge label appNameS color labelWidth nameWidth (labelWidth + nameWidth))).
Proof.
  intros Hbadge Hlabel Hcolor Hstyle Hname. unfold generateBadge.
  change (b <- get_prop (VObj fields) "badge" ;; ret (or_ b (VObj [])))
    with (Ok (or_ (member fields "badge") (VObj []))).
  cbn [bind ret Monad_outcome].
  rewrite !(badge_read fields _ Hbadge). cbn [bind ret Monad_outcome get_prop].
  rewrite (setting_or _ _ _ Hlabel), (setting_or _ _ _ Hcolor),
    (setting_or _ _ _ Hstyle), Hname.
  cbn [length_of to_string strict_eq_str bind ret Monad_outcome].
  destruct (length_of name); [|reflexivity|reflexivity].
  cbn [bind ret Monad_outcome].
  destruct (to_string name); [|reflexivity|reflexivity].
  cbn [bind ret Monad_outcome].
  destruct (style =? "flat"); reflexivity.
Qed.

(** X7. A config without [name]: [generateBadge] raises a [TypeError]
    (it reads [name.length]), whatever the text settings of the badge,
    while [generateSnippets] returns and prints the missing name as
    [undefined]. *)
Theorem missing_name_badge_throws_snippets_print :
  forall (fields : list (string * value)) (label color style pathS urlS : string)
         (badgePath installURL : value),
  member fields "name" = VUndefined ->
  badge_mapping_or_absent fields ->
  setting (member (badge_of fields) "label") "Install" = Some label ->
  setting (member (badge_of fields) "color") "#0366d6" = Some color ->
  setting (member (badge_of fields) "style") "flat" = Some style ->
  installers_mapping_or_absent fields ->
  to_string (default_param badgePath (VStr "./install-badge.svg")) = Ok pathS ->
  to_string (snippet_target fields installURL) = Ok urlS ->
  generateBadge (VObj fields) = Throw TypeError /\
  exists sn,
    generateSnippets (VObj fields) badgePath installURL = Ok sn /\
    markdown sn = "[![Install undefined](" ++ pathS ++ ")](" ++ urlS ++ ")".
Proof.
  intros fields label color style pathS urlS badgePath installURL
         Hname Hbadge Hlabel Hcolor Hstyle Hinst Hpath Hurl.
  split.
  - rewrite (generateBadge_run fields label color style VUndefined); auto.
  - rewrite (generateSnippets_run fields badgePath installURL "undefined" pathS urlS);
      auto.
    + eexists. split; reflexivity.
    + now rewrite Hname.
Qed.

(** X8. What [createTemplate] builds works with the rest of the core, for
    every app name: [getInstallTarget] finds an installer, whose URL
    embeds the name, for each of [darwin], [win32], [linux]; an unknown
    platform falls back to the releases page; the snippet links to the
    homepage; and the badge is the flat one with the default label and
    color. *)
Theorem createTemplate_composes : forall appName : string,
  exists template,
    createTemplate (VStr appName) = Ok (VObj template) /\
    (forall p, In p PLATFORM_ORDER ->
               exists u, getInstallTarget (VObj template) p =
                         Ok {| available := true; platform := p;
                               url := Some (VStr u); fallback := None |} /\
                         includes u appName = true) /\
    getInstallTarget (VObj template) "unknown" =
      Ok {| available := false; platform := "unknown"; url := None;
            fallback := Some (VStr "https://github.com/user/repo/releases") |} /\
    (exists sn, generateSnippets (VObj template) VUndefined VUndefined = Ok sn /\
                markdown sn = "[![Install " ++ appName ++
                              "](./install-badge.svg)](https://github.com/user/repo)") /\
    generateBadge (VObj template) =
      Ok (flat_badge "Install" appName "#0366d6" 52
            (str_length appName * 7 + 10) (52 + (str_length appName * 7 + 10))).
Proof.
  intros appName. unfold createTemplate.
  cbn [default_param to_string bind ret Monad_outcome].
  eexists. split; [reflexivity|]. split; [|split; [|split]].
  - intros p Hp. simpl in Hp. destruct Hp as [<-|[<-|[<-|[]]]];
      eexists; (split; [reflexivity|]); find_substring.
  - reflexivity.
  - eexists. split; reflexivity.
  - reflexivity.
Qed.

(* ===================================================================== *)
(** * Properties of the server *)
(* ===================================================================== *)

Section ServerFacts.

Import Server ServerSpec.

Context {host : Host} {node : Node}.

Lemma send_plain (res : list call) (message : string) :
  send res 400 (VStr message) [ ("Content-Type", VStr "text/plain") ] =
  Return (res ++ answer_400 message)%list.
Proof. reflexivity. Qed.

Lemma send_redirect (res : list call) (location : value) :
  header_text_ok location = true ->
  send res 302 (VStr "") [ ("Location", location) ] =
  Return (res ++ answer_302 location)%list.
Proof.
  intros H. unfold send, spread. cbn [fold_left set_member fst snd String.eqb Ascii.eqb Bool.eqb].
  cbn [forallb snd]. rewrite H. reflexivity.
Qed.

Lemma send_page (res : list call) (page : string) :
  send res 200 (VStr page) [ ("Content-Type", VStr "text/html; charset=utf-8") ] =
  Return (res ++ answer_page page)%list.
Proof. reflexivity. Qed.

Lemma decodeConfig_missing (param : value) :
  ~ (exists text, param = VStr text /\ text <> "") ->
  decodeConfig param = Raise "Missing config parameter".
Proof.
  intros H. unfold decodeConfig.
  destruct param as [| |b|x|s| | | |]; try reflexivity.
  - now destruct b.
  - cbn. now rewrite orb_true_r.
  - destruct s; [reflexivity|]. exfalso. apply H. eexists. split; [reflexivity | discriminate].
Qed.

Lemma decodeConfig_text (text : string) :
  text <> "" ->
  decodeConfig (VStr text) =
  if (MAX_CONFIG_SIZE <? N.of_nat (List.length (Buffer_from_base64 text)))%N
  then Raise "Config too large"
  else Return (Buffer_toString_utf8 (Buffer_from_base64 text)).
Proof.
  intros H. unfold decodeConfig. destruct text; [contradiction | reflexivity].
Qed.

(** X9. The checks made before any parsing: a request whose [config]
    parameter is missing, empty or not a string is answered 400 [Missing
    config parameter], and one whose parameter decodes to more than
    [MAX_CONFIG_SIZE] (8192) bytes is answered 400 [Config too large], by
    [handleInstall] and [handleBadge] alike, whatever the decoded bytes
    are: they are not parsed. *)
Theorem unusable_parameter_answered_400 : forall (req : Request) (res : list call),
  (~ (exists text, config_param req = VStr text /\ text <> "") ->
   handleInstall req res = Return (res ++ answer_400 "Missing config parameter")%list /\
   handleBadge req res = Return (res ++ answer_400 "Missing config parameter")%list) /\
  (forall text,
      config_param req = VStr text -> text <> "" ->
      (MAX_CONFIG_SIZE < N.of_nat (List.length (Buffer_from_base64 text)))%N ->
      handleInstall req res = Return (res ++ answer_400 "Config too large")%list /\
      handleBadge req res = Return (res ++ answer_400 "Config too large")%list).
Proof.
  intros req res. split.
  - intros H. unfold handleInstall, handleBadge, parseConfigFromRequest.
    fold (config_param req). rewrite (decodeConfig_missing _ H).
    split; reflexivity.
  - intros text Hp Hne Hbig. unfold handleInstall, handleBadge, parseConfigFromRequest.
    fold (config_param req). rewrite Hp, (decodeConfig_text text Hne).
    apply N.ltb_lt in Hbig. rewrite Hbig. split; reflexivity.
Qed.

(** X10. A request whose decoded text [parseConfig] does not accept is
    answered 400 by both handlers, with every error of the parse result
    in the body: [Invalid config: ] followed by the errors joined with a
    comma and a space. *)
Theorem invalid_config_answered_400 :
  forall (req : Request) (res : list call) (text : string) (result : ParseResult),
  config_param req = VStr text -> text <> "" ->
  (N.of_nat (List.length (Buffer_from_base64 text)) <= MAX_CONFIG_SIZE)%N ->
  parseConfig (Buffer_toString_utf8 (Buffer_from_base64 text)) = Ok result ->
  success result = false ->
  exists e es,
    parse_errors result = Some (e :: es) /\
    handleInstall req res =
      Return (res ++ answer_400 ("Invalid config: " ++ join ", " (e :: es)))%list /\
    handleBadge req res =
      Return (res ++ answer_400 ("Invalid config: " ++ join ", " (e :: es)))%list.
Proof.
  intros req res text result Hp Hne Hsize Hparse Hs.
  destruct (parseConfig_failure _ _ Hparse Hs) as (_ & e & es & He).
  exists e, es. split; [exact He|].
  unfold handleInstall, handleBadge, parseConfigFromRequest.
  fold (config_param req). rewrite Hp, (decodeConfig_text text Hne).
  apply N.ltb_ge in Hsize. rewrite Hsize.
  cbn [bind ret Monad_run]. rewrite Hparse. cbn [of_core bind ret Monad_run].
  rewrite Hs, He. cbn [negb try_catch_message]. split; apply send_plain.
Qed.

End ServerFacts.

Lemma detectOS_ok_range (v : value) (os : string) :
  detectOS v = Ok os -> In os ["darwin"; "linux"; "win32"; "unknown"].
Proof.
  intros H. destruct v as [| |b|x|s|items|props|name|];
    try (injection H as <-; simpl; tauto).
  - destruct b; [discriminate H | injection H as <-; simpl; tauto].
  - unfold detectOS in H. destruct (truthy (VNum x)); cbn in H;
      [discriminate H | injection H as <-; simpl; tauto].
  - destruct (detectOS_range s) as (os' & Hos & Hr). rewrite Hos in H.
    now injection H as <-.
  - discriminate H.
  - unfold detectOS in H. cbn in H. destruct (assoc "toLowerCase" props) as [[]|];
      discriminate H.
  - discriminate H.
  - discriminate H.
Qed.

Lemma detected_not_inherited (os : string) :
  In os ["darwin"; "linux"; "win32"; "unknown"] -> inherited os = VUndefined.
Proof. simpl. intros H. decompose [or] H; subst; try reflexivity; contradiction. Qed.

Lemma first_truthy_two_falsy (a b : value) :
  truthy (first_truthy [a; b]) = false -> truthy a = false /\ truthy b = false.
Proof.
  cbn [first_truthy]. destruct (truthy a) eqn:Ha; [congruence|].
  destruct (truthy b) eqn:Hb; [congruence|]. tauto.
Qed.


Section ServerDispatch.

Import Server ServerSpec.

Context {host : Host} {node : Node}.

Lemma join_empty (xs : list string) : join "" xs = concat_strings xs.
Proof.
  induction xs as [|x [|y rest] IH]; [reflexivity | |].
  - simpl. now rewrite append_empty_r.
  - change (join "" (x :: y :: rest)) with (x ++ "" ++ join "" (y :: rest)).
    rewrite IH. reflexivity.
Qed.

Lemma map_links_accepted (entries : list (string * value)) (keys : list string) :
  (forall p, In p keys ->
             In p PLATFORM_ORDER /\ exists u, assoc p entries = Some (VStr u)) ->
  map_links [ ("darwin", VStr "macOS"); ("linux", VStr "Linux"); ("win32", VStr "Windows") ]
    (VObj entries) keys =
  Ok (map (fun p => link_of (p, own_value (VObj entries) p)) keys).
Proof.
  induction keys as [|p keys IH]; intros Hall; [reflexivity|].
  cbn [map_links map]. rewrite IH by (intros q Hq; apply Hall; now right).
  destruct (Hall p) as (Hp & u & Hu); [now left|].
  unfold download_link, own_value. cbn [get_prop own_props]. unfold member at 1.
  rewrite Hu. cbn [bind ret Monad_outcome to_string].
  simpl in Hp. destruct Hp as [<-|[<-|[<-|[]]]]; reflexivity.
Qed.

Lemma map_own_entries (before entries : list (string * value)) :
  NoDup (map fst (before ++ entries)) ->
  map (fun p => link_of (p, own_value (VObj (before ++ entries)) p)) (map fst entries) =
  map link_of entries.
Proof.
  revert before. induction entries as [|[k v] rest IH]; intros before Hnd; [reflexivity|].
  cbn [map fst].
  assert (Hk : ~ In k (map fst before)).
  { rewrite map_app in Hnd. cbn [map fst] in Hnd.
    apply NoDup_remove_2 in Hnd. intros Hin. apply Hnd, in_or_app. now left. }
  f_equal.
  - unfold own_value. cbn [own_props]. rewrite (assoc_app_skip _ _ _ Hk).
    cbn [assoc]. now rewrite String.eqb_refl.
  - specialize (IH (before ++ [(k, v)])%list).
    rewrite <- app_assoc in IH. cbn [app] in IH. now apply IH.
Qed.

(** What the fallback page is on a config [validateConfig] lets through,
    with no homepage, for a platform [detectOS] can return. *)
Lemma generateFallbackPage_accepted (fields : list (string * value)) (os : string) :
  accepted (VObj fields) ->
  truthy (member fields "homepage") = false ->
  In os ["darwin"; "linux"; "win32"; "unknown"] ->
  exists name,
    member fields "name" = VStr name /\
    generateFallbackPage (VObj fields) os =
    Ok (fallback_page name name
          (if os =? "unknown" then ""
           else "<p>Detected OS: " ++ platform_label os ++ "</p>")
          (if negb (os =? "unknown") &&
              negb (truthy (member (installers_of fields) os))
           then bquote "<p class=`notice`>No installer available for your platform</p>"
           else "")
          (concat_strings
             (map (fun p => link_of (p, own_value (VObj (installers_of fields)) p))
                (map fst (installers_of fields))))
          "").
Proof.
  intros Hacc Hhome Hos.
  pose proof Hacc as (fields' & name & entries & [= <-] & Hname & _ & Hinst & _ & Hall).
  exists name. split; [exact Hname|].
  unfold generateFallbackPage, installers_of. cbn [get_prop bind ret Monad_outcome].
  rewrite Hinst, Hname, Hhome. cbn [or_ truthy Object_keys own_props bind ret
                                     Monad_outcome to_string get_prop].
  rewrite map_links_accepted
    by (intros p Hp; destruct (Hall p Hp) as (H1 & u & Hu & _); eauto).
  rewrite join_empty.
  simpl in Hos. destruct Hos as [<-|[<-|[<-|[<-|[]]]]];
    cbn [String.eqb Ascii.eqb Bool.eqb negb andb member assoc or_ truthy to_string
         bind ret Monad_outcome];
    try reflexivity;
    destruct (truthy (member entries _)); reflexivity.
Qed.

Lemma parseConfigFromRequest_carries (req : Request) (c : value) :
  carries req c -> accepted c -> parseConfigFromRequest req = Return c.
Proof.
  intros (text & Hp & Hne & Hsize & Hparse) Hacc.
  unfold parseConfigFromRequest. fold (config_param req).
  rewrite Hp, (decodeConfig_text text Hne).
  apply N.ltb_ge in Hsize. rewrite Hsize. cbn [bind ret Monad_run].
  unfold parseConfig. rewrite Hparse. cbn [bind ret Monad_outcome].
  rewrite (accepted_then_valid c Hacc). reflexivity.
Qed.


Lemma handleInstall_on_accepted
  (req : Request) (res : list call) (fields : list (string * value)) (os : string) :
  carries req (VObj fields) ->
  accepted (VObj fields) ->
  detectOS (or_ (req_user_agent req) (VStr "")) = Ok os ->
  handleInstall req res =
  try_catch_message
    (if truthy (member (installers_of fields) os)
     then send res 302 (VStr "") [ ("Location", member (installers_of fields) os) ]
     else if truthy (first_truthy [member fields "fallback"; member fields "homepage"])
     then send res 302 (VStr "")
            [ ("Location", first_truthy [member fields "fallback"; member fields "homepage"]) ]
     else
       page <- of_core (generateFallbackPage (VObj fields) os) ;;
       send res 200 (VStr page) [ ("Content-Type", VStr "text/html; charset=utf-8") ])
    (fun message =>
       send res 400 (VStr message) [ ("Content-Type", VStr "text/plain") ]).
Proof.
  intros Hcar Hacc Hos.
  unfold handleInstall. rewrite (parseConfigFromRequest_carries req _ Hcar Hacc).
  cbn [bind ret Monad_run]. rewrite Hos. cbn [of_core bind ret Monad_run].
  rewrite (getInstallTarget_run fields os (accepted_mapping fields Hacc)).
  cbn [of_core bind ret Monad_run].
  destruct (truthy (member (installers_of fields) os));
    cbn [available url fallback field]; reflexivity.
Qed.

(** X11. How [handleInstall] answers a request that carries a config
    [validateConfig] lets through, [os] being what [detectOS] makes of
    the [user-agent] header (or of the empty text without one): when
    [installers] has an entry for [os], a redirect (302) to that URL;
    otherwise, when [fallback] or [homepage] is truthy, a redirect to the
    first of them that is; otherwise the fallback page, with status 200.
    (A redirect needs a location [writeHead] accepts as a header.) *)
Theorem handleInstall_dispatch :
  forall (req : Request) (res : list call) (fields : list (string * value))
         (os : string),
  carries req (VObj fields) ->
  accepted (VObj fields) ->
  URL_parses "" = false ->
  detectOS (or_ (req_user_agent req) (VStr "")) = Ok os ->
  let fb := first_truthy [member fields "fallback"; member fields "homepage"] in
  (forall u,
      assoc os (installers_of fields) = Some (VStr u) ->
      header_text_ok (VStr u) = true ->
      handleInstall req res = Return (res ++ answer_302 (VStr u))%list) /\
  (~ In os (map fst (installers_of fields)) ->
   truthy fb = true -> header_text_ok fb = true ->
   handleInstall req res = Return (res ++ answer_302 fb)%list) /\
  (~ In os (map fst (installers_of fields)) ->
   truthy fb = false ->
   exists page,
     generateFallbackPage (VObj fields) os = Ok page /\
     handleInstall req res = Return (res ++ answer_page page)%list).
Proof.
  intros req res fields os Hcar Hacc Hempty Hos fb.
  pose proof (detectOS_ok_range _ _ Hos) as Hrange.
  pose proof (detected_not_inherited os Hrange) as Hinh.
  destruct (accepted_installer fields os Hacc Hempty Hinh) as [Hin Hout].
  pose proof (handleInstall_on_accepted req res fields os Hcar Hacc Hos) as Hstart.
  fold fb in Hstart.
  rewrite Hstart. split; [|split].
  - intros u Hu Hok.
    destruct (Hin (assoc_some_in_keys _ _ _ Hu)) as (_ & u' & Hu' & Hm & _ & Hne).
    rewrite Hu in Hu'. injection Hu' as <-. rewrite Hm.
    assert (Ht : truthy (VStr u) = true)
      by (cbn; destruct (String.eqb_spec u ""); [contradiction | reflexivity]).
    rewrite Ht, (send_redirect res (VStr u) Hok). reflexivity.
  - intros Hnin Hfb Hok. rewrite (Hout Hnin). cbn [truthy]. rewrite Hfb.
    rewrite (send_redirect res fb Hok). reflexivity.
  - intros Hnin Hfb. rewrite (Hout Hnin). cbn [truthy]. rewrite Hfb.
    destruct (first_truthy_two_falsy _ _ Hfb) as [_ Hhome].
    destruct (generateFallbackPage_accepted fields os Hacc Hhome Hrange)
      as (name & _ & Hpage).
    eexists. split; [exact Hpage|]. rewrite Hpage.
    cbn [of_core bind ret Monad_run]. rewrite send_page. reflexivity.
Qed.

End ServerDispatch.



Section ServerAnswers.

Import Server ServerSpec.

Context {host : Host} {node : Node}.


Lemma send_badge (res : list call) (svg : string) :
  send res 200 (VStr svg)
    [ ("Content-Type", VStr "image/svg+xml; charset=utf-8");
      ("Cache-Control", VStr "public, max-age=3600") ] =
  Return (res ++ answer_badge svg)%list.
Proof. reflexivity. Qed.






End ServerAnswers.

Section ServerPages.

Import Server ServerSpec.

Context {host : Host} {node : Node}.

(** X14. The fallback page of a config [validateConfig] lets through,
    with distinct installer keys and no homepage, for a platform [os]
    that [detectOS] can return: the title and the heading carry the name;
    the detected platform is printed under its display name unless it is
    [unknown]; the notice that no installer is available is there exactly
    when [os] is known and [installers] has no truthy entry for it; and
    there is one download link for each installer, in the order of the
    keys of [installers], to its URL and labelled with the display name
    of its platform. *)
Theorem fallback_page_lists_installers :
  forall (fields : list (string * value)) (os : string),
  accepted (VObj fields) ->
  NoDup (map fst (installers_of fields)) ->
  truthy (member fields "homepage") = false ->
  In os ["darwin"; "linux"; "win32"; "unknown"] ->
  exists name,
    member fields "name" = VStr name /\
    generateFallbackPage (VObj fields) os =
    Ok (fallback_page name name
          (if os =? "unknown" then ""
           else "<p>Detected OS: " ++ platform_label os ++ "</p>")
          (if negb (os =? "unknown") &&
              negb (truthy (member (installers_of fields) os))
           then bquote "<p class=`notice`>No installer available for your platform</p>"
           else "")
          (concat_strings (map link_of (installers_of fields)))
          "").
Proof.
  intros fields os Hacc Hnd Hhome Hos.
  destruct (generateFallbackPage_accepted fields os Hacc Hhome Hos)
    as (name & Hname & Hpage).
  exists name. split; [exact Hname|]. rewrite Hpage.
  pose proof (map_own_entries [] (installers_of fields) Hnd) as Hlinks.
  cbn [app] in Hlinks. now rewrite Hlinks.
Qed.



(** X16. The badge [handleBadge] serves. For a request that carries a
    config [validateConfig] lets through, whose [badge] is a mapping or
    absent with text settings, the answer has status 200, the SVG content
    type and a one-hour public cache, and its body is the badge of the
    config's name: the flat one when the style is [flat], the plain one
    for any other style, its widths computed from the lengths of the
    label and of the name. *)
Theorem handleBadge_serves_badge :
  forall (req : Request) (res : list call) (fields : list (string * value))
         (label color style : string),
  carries req (VObj fields) ->
  accepted (VObj fields) ->
  badge_mapping_or_absent fields ->
  setting (member (badge_of fields) "label") "Install" = Some label ->
  setting (member (badge_of fields) "color") "#0366d6" = Some color ->
  setting (member (badge_of fields) "style") "flat" = Some style ->
  exists name,
    member fields "name" = VStr name /\
    let labelWidth := (str_length label * 6 + 10)%N in
    let nameWidth := (str_length name * 7 + 10)%N in
    handleBadge req res =
    Return (res ++ answer_badge
                     ((if style =? "flat" then flat_badge else plain_badge)
                        label name color labelWidth nameWidth
                        (labelWidth + nameWidth)%N))%list.
Proof.
  intros req res fields label color style Hcar Hacc Hbadge Hlabel Hcolor Hstyle.
  pose proof Hacc as (fields' & name & entries & [= <-] & Hname & _).
  exists name. split; [exact Hname|]. intros labelWidth nameWidth.
  unfold handleBadge. rewrite (parseConfigFromRequest_carries req _ Hcar Hacc).
  cbn [bind ret Monad_run].
  rewrite (generateBadge_run fields label color style (VStr name)
             Hbadge Hlabel Hcolor Hstyle Hname).
  cbn [length_of to_string bind ret Monad_outcome of_core Monad_run].
  fold labelWidth nameWidth.
  destruct (style =? "flat"); rewrite send_badge; reflexivity.
Qed.

End ServerPages.

(* ===================================================================== *)
(** * Properties of the command line *)
(* ===================================================================== *)

Lemma read_write_same (name content : string) (fs : list (string * string)) :
  Cli.read_file name (Cli.write_file name content fs) = Some content.
Proof.
  induction fs as [|[name' content'] rest IH]; cbn [Cli.write_file Cli.read_file].
  - now rewrite String.eqb_refl.
  - destruct (name =? name') eqn:E; cbn [Cli.read_file]; rewrite E; [reflexivity | exact IH].
Qed.

Lemma read_write_other (name name' content : string) (fs : list (string * string)) :
  name <> name' ->
  Cli.read_file name (Cli.write_file name' content fs) = Cli.read_file name fs.
Proof.
  intros Hne. induction fs as [|[n c] rest IH]; cbn [Cli.write_file Cli.read_file].
  - destruct (String.eqb_spec name name'); [contradiction | reflexivity].
  - destruct (String.eqb_spec name' n) as [->|Hn]; cbn [Cli.read_file].
    + destruct (String.eqb_spec name n); [contradiction | reflexivity].
    + now rewrite IH.
Qed.

Section CliFacts.

Import Cli CliSpec.

Context {host : Host} {printer : Printer}.

(** The three ways [readConfig] ends: the file is missing, its text is not
    a config [validateConfig] lets through, or it is. *)
Lemma readConfig_cases (w : World) :
  (read_file CONFIG_FILE (files w) = None /\
   readConfig w =
   (says w [Failure ("Missing " ++ CONFIG_FILE ++ " in current directory")], Exit 1)) \/
  (exists content result e es,
      read_file CONFIG_FILE (files w) = Some content /\
      parseConfig content = Ok result /\ success result = false /\
      parse_errors result = Some (e :: es) /\
      readConfig w =
      (says w [Failure ("Invalid config:
- " ++ Server.join "
- " (e :: es))], Exit 1)) \/
  (exists content result c,
      read_file CONFIG_FILE (files w) = Some content /\
      parseConfig content = Ok result /\ success result = true /\
      JSON_parse content = inr c /\ accepted c /\
      readConfig w = (w, Done c)).
Proof.
  unfold readConfig, existsSync, readFileSync, fail, print, exit.
  cbn [bind ret Monad_proc].
  destruct (read_file CONFIG_FILE (files w)) as [content|] eqn:Hread;
    cbn [negb bind ret Monad_proc]; [|left; split; reflexivity].
  rewrite Hread.
  destruct (parseConfig_total content) as [result Hr]. rewrite Hr.
  unfold of_core. cbn beta iota.
  destruct (success result) eqn:Hs; cbn [negb].
  - right. right.
    destruct (parseConfig_success _ _ Hr Hs) as (_ & c & Hc & Hparse & Hacc).
    exists content, result, c. rewrite Hc. now repeat (split; [assumption|]).
  - right. left.
    destruct (parseConfig_failure _ _ Hr Hs) as (_ & e & es & He).
    exists content, result, e, es. rewrite He. now repeat (split; [assumption|]).
Qed.

(** [cmdValidate] prints one line and leaves the files. *)
Lemma cmdValidate_files (w : World) :
  exists (l : line) (r : step unit), cmdValidate w = (says w [l], r).
Proof.
  unfold cmdValidate. cbn [bind Monad_proc].
  destruct (readConfig_cases w)
    as [(_ & ->) | [(content & result & e & es & _ & _ & _ & _ & ->)
                   | (content & result & c & _ & _ & _ & _ & Hacc & ->)]];
    [eexists _, _; reflexivity ..|].
  unfold of_core. rewrite (accepted_then_valid c Hacc).
  cbn [valid negb bind ret Monad_proc]. eexists _, _. reflexivity.
Qed.


(** What each command does to the files. *)
Lemma main_files (argv2 argv3 : value) (w w' : World) (r : step unit) :
  main argv2 argv3 w = (w', r) ->
  files w' = files w \/
  (exists text,
      files w' = write_file CONFIG_FILE text (files w) /\
      argv2 = VStr "init" /\ read_file CONFIG_FILE (files w) = None /\ r = Done tt) \/
  (exists svg,
      files w' = write_file BADGE_FILE svg (files w) /\
      argv2 = VStr "generate" /\ (r = Done tt \/ r = Crash)).
Proof.
  unfold main.
  destruct (strict_eq_str argv2 "init") eqn:Hinit.
  { assert (argv2 = VStr "init") as ->
      by (destruct argv2; try discriminate Hinit; cbn in Hinit;
          now apply String.eqb_eq in Hinit; subst).
    unfold cmdInit, existsSync, fail, log, print, exit, writeFileSync.
    cbn [bind ret Monad_proc].
    destruct (read_file CONFIG_FILE (files w)) eqn:Hread; cbn [bind ret Monad_proc].
    - intros [= <- <-]. now left.
    - unfold of_core at 1. destruct (createTemplate _) as [template| |];
        [|intros [= <- <-]; now left ..].
      destruct (JSON_stringify_spaces template 2) as [text|]; cbn [bind ret Monad_proc of_core].
      + intros [= <- <-]. right. left. exists text. now repeat split.
      + intros [= <- <-]. now left. }
  destruct (strict_eq_str argv2 "validate").
  { destruct (cmdValidate_files w) as (l & r' & ->). intros [= <- <-]. now left. }
  destruct (strict_eq_str argv2 "generate") eqn:Hgen.
  { assert (argv2 = VStr "generate") as ->
      by (destruct argv2; try discriminate Hgen; cbn in Hgen;
          now apply String.eqb_eq in Hgen; subst).
    unfold cmdGenerate. cbn [bind Monad_proc].
    destruct (readConfig_cases w)
      as [(_ & ->) | [(content & result & e & es & _ & _ & _ & _ & ->)
                     | (content & result & c & _ & _ & _ & _ & _ & ->)]];
      [intros [= <- <-]; now left ..|].
    unfold of_core at 1. destruct (generateBadge c) as [svg| |];
      [|intros [= <- <-]; now left ..].
    unfold writeBadge, writeFileSync, log, print. cbn [bind ret Monad_proc].
    unfold of_core. destruct (generateSnippets c VUndefined VUndefined) as [sn| |];
      cbn [files console];
      intros [= <- <-]; right; right; exists svg; cbn [files]; tauto. }
  unfold print, exit. cbn [bind Monad_proc]. intros [= <- <-]. now left.
Qed.

End CliFacts.

Lemma or_default_nonempty (x : value) (d a : string) :
  d <> "" -> or_ x (VStr d) = VStr a -> a <> "".
Proof.
  intros Hd. unfold or_. destruct (truthy x) eqn:Ht.
  - intros ->. cbn in Ht. intros ->. discriminate Ht.
  - intros [= <-]. exact Hd.
Qed.

Section CliCompositions.

Import Cli CliSpec.

Context {host : Host} {printer : Printer}.

(** X18. The files a run may touch. Whatever the command and the
    directory, a run changes at most one file: [install-bridge.json],
    only under [init] and only when the directory had none (an existing
    config is never overwritten), or [install-badge.svg], only under
    [generate]. A run that ends with [process.exit], whatever the code,
    has changed no file: every failure is found before anything is
    written. *)
Theorem main_touches_only_its_files :
  forall (argv2 argv3 : value) (w w' : World) (r : step unit),
  main argv2 argv3 w = (w', r) ->
  (forall name,
      read_file name (files w') <> read_file name (files w) ->
      name = CONFIG_FILE /\ argv2 = VStr "init" /\
      read_file CONFIG_FILE (files w) = None \/
      name = BADGE_FILE /\ argv2 = VStr "generate") /\
  (forall code, r = Exit code -> files w' = files w).
Proof.
  intros argv2 argv3 w w' r Hrun.
  destruct (main_files argv2 argv3 w w' r Hrun)
    as [Hsame | [(text & Hfiles & Hcmd & Habsent & Hr)
                | (svg & Hfiles & Hcmd & Hr)]].
  - split; [|intros; exact Hsame]. intros name Hchanged. rewrite Hsame in Hchanged.
    now contradiction Hchanged.
  - split; [|intros code Hexit; rewrite Hr in Hexit; discriminate Hexit].
    intros name Hchanged. left.
    destruct (string_dec name CONFIG_FILE) as [->|Hne]; [now repeat split|].
    rewrite Hfiles, (read_write_other _ _ _ _ Hne) in Hchanged.
    now contradiction Hchanged.
  - split; [|intros code Hexit; destruct Hr as [Hr|Hr]; rewrite Hr in Hexit;
             discriminate Hexit].
    intros name Hchanged. right.
    destruct (string_dec name BADGE_FILE) as [->|Hne]; [now split|].
    rewrite Hfiles, (read_write_other _ _ _ _ Hne) in Hchanged.
    now contradiction Hchanged.
Qed.

Lemma readConfig_accepted (w : World) (content : string) (c : value) :
  read_file CONFIG_FILE (files w) = Some content ->
  JSON_parse content = inr c ->
  accepted c ->
  readConfig w = (w, Done c).
Proof.
  intros Hread Hparse Hacc.
  destruct (readConfig_cases w)
    as [(Hnone & _) | [(content' & result & e & es & Hread' & Hr & Hs & _)
                      | (content' & result & c' & Hread' & _ & _ & Hparse' & _ & ->)]].
  - rewrite Hread in Hnone. discriminate Hnone.
  - rewrite Hread in Hread'. injection Hread' as <-.
    unfold parseConfig in Hr. rewrite Hparse in Hr.
    cbn [bind ret Monad_outcome] in Hr. rewrite (accepted_then_valid c Hacc) in Hr.
    cbn in Hr. injection Hr as <-. discriminate Hs.
  - rewrite Hread in Hread'. injection Hread' as <-.
    rewrite Hparse in Hparse'. now injection Hparse' as <-.
Qed.

(** X19. [init], then [validate] and [generate]. In a directory without
    [install-bridge.json], on a host whose URL parser accepts every text
    that starts with [https://github.com/] and whose [JSON.parse] reads
    the template back from its indented text: [init] writes that text to
    [install-bridge.json], touching nothing else, and reports it; after
    it [validate] finds the config valid; [generate] writes to
    [install-badge.svg] the flat badge of the app name with the default
    label and color, and prints the two snippets, the Markdown one
    showing [./install-badge.svg] and linking to the homepage; and a
    second [init], under any name, fails with exit code 1 and leaves the
    files as they are. The app name is [argv3], or [MyApp] when that is
    absent or empty. *)
Theorem init_then_validate_and_generate :
  forall (w : World) (argv3 argv3' : value) (appName text : string) (template : value),
  read_file CONFIG_FILE (files w) = None ->
  or_ argv3 (VStr "MyApp") = VStr appName ->
  createTemplate (VStr appName) = Ok template ->
  JSON_stringify_spaces template 2 = Some text ->
  JSON_parse text = inr template ->
  (forall rest, URL_parses ("https://github.com/" ++ rest) = true) ->
  exists w1 w2 sn,
    cmdInit argv3 w = (w1, Done tt) /\
    files w1 = write_file CONFIG_FILE text (files w) /\
    console w1 = (console w ++ [Success "Created install-bridge.json"])%list /\
    cmdValidate w1 = (says w1 [Success "Config is valid"], Done tt) /\
    cmdGenerate w1 = (w2, Done tt) /\
    files w2 =
    write_file BADGE_FILE
      (flat_badge "Install" appName "#0366d6" 52
         (str_length appName * 7 + 10) (52 + (str_length appName * 7 + 10)))
      (files w1) /\
    generateSnippets template VUndefined VUndefined = Ok sn /\
    markdown sn =
    "[![Install " ++ appName ++ "](./install-badge.svg)](https://github.com/user/repo)" /\
    console w2 =
    (console w1 ++
     [Success "Generated install-badge.svg";
      Printed "
--- Markdown ---
"; Printed (markdown sn);
      Printed "
--- HTML ---
"; Printed (html sn)])%list /\
    cmdInit argv3' w1 = (says w1 [Failure "install-bridge.json already exists"], Exit 1).
Proof.
  intros w argv3 argv3' appName text template Habsent Hname Htemplate Htext Hparse Hurl.
  pose proof (or_default_nonempty argv3 "MyApp" appName ltac:(discriminate) Hname) as Hne.
  assert (Hvalid : forall suffix,
             isValidURL (VStr ("https://github.com/user/repo/releases/latest/download/"
                               ++ appName ++ suffix)) = true).
  { intros suffix. cbn [isValidURL].
    exact (Hurl ("user/repo/releases/latest/download/" ++ appName ++ suffix)). }
  assert (E : template = match createTemplate (VStr appName) with
                         | Ok t => t
                         | _ => VNull
                         end)
    by (rewrite Htemplate; reflexivity).
  clear Htemplate. unfold createTemplate in E.
  cbn [default_param to_string bind ret Monad_outcome] in E. subst template.
  match goal with
  | H : JSON_parse text = inr ?t |- _ => set (template := t) in *
  end.
  assert (Hacc : accepted template).
  { apply (valid_then_accepted template {| valid := true; errors := [] |});
      [|reflexivity].
    apply validateConfig_three_platforms; [exact Hne | apply Hvalid ..]. }
  assert (Hinit : cmdInit argv3 w =
                  ({| files := write_file CONFIG_FILE text (files w);
                      console := console w ++ [Success "Created install-bridge.json"] |},
                   Done tt)).
  { unfold cmdInit, existsSync, fail, log, print, exit, writeFileSync, of_core.
    cbn [bind ret Monad_proc]. rewrite Habsent, Hname.
    unfold createTemplate. cbn [default_param to_string bind ret Monad_outcome].
    fold template. rewrite Htext. reflexivity. }
  set (w1 := {| files := write_file CONFIG_FILE text (files w);
                console := (console w ++ [Success "Created install-bridge.json"])%list |})
    in *.
  assert (Hread : read_file CONFIG_FILE (files w1) = Some text)
    by apply read_write_same.
  pose proof (readConfig_accepted w1 text template Hread Hparse Hacc) as Hconfig.
  assert (Hbadge : generateBadge template =
                   Ok (flat_badge "Install" appName "#0366d6" 52
                         (str_length appName * 7 + 10)
                         (52 + (str_length appName * 7 + 10))))
    by reflexivity.
  assert (Hsn : exists sn,
             generateSnippets template VUndefined VUndefined = Ok sn /\
             markdown sn =
             "[![Install " ++ appName ++
             "](./install-badge.svg)](https://github.com/user/repo)")
    by (eexists; split; reflexivity).
  destruct Hsn as (sn & Hsn & Hmd).
  eexists w1, _, sn.
  split; [exact Hinit|]. split; [reflexivity|]. split; [reflexivity|].
  split.
  { unfold cmdValidate. cbn [bind Monad_proc]. rewrite Hconfig.
    unfold of_core. rewrite (accepted_then_valid template Hacc). reflexivity. }
  split.
  { unfold cmdGenerate. cbn [bind Monad_proc]. rewrite Hconfig.
    unfold of_core. rewrite Hbadge, Hsn. reflexivity. }
  split; [reflexivity|]. split; [exact Hsn|]. split; [exact Hmd|].
  split.
  { cbn [console]. rewrite <- !app_assoc. reflexivity. }
  unfold cmdInit, existsSync, fail, print, exit. cbn [bind ret Monad_proc].
  rewrite Hread. reflexivity.
Qed.

End CliCompositions.

(* ===================================================================== *)
(** * The further properties on concrete inputs *)
(* ===================================================================== *)

Lemma test_config_accepted : accepted (host := Reference.host) (VObj test_config).
Proof.
  apply (valid_then_accepted (host := Reference.host) _ {| valid := true; errors := [] |});
    reflexivity.
Qed.

Lemma install_request_carries :
  ServerSpec.carries (host := Reference.host) (node := ReferenceNode.node)
    install_request (VObj test_config).
Proof.
  exists test_config_base64. split; [reflexivity|]. split; [discriminate|].
  split; [vm_compute; discriminate | vm_compute; reflexivity].
Qed.

Lemma badge_request_carries :
  ServerSpec.carries (host := Reference.host) (node := ReferenceNode.node)
    badge_request (VObj test_config).
Proof.
  exists test_config_base64. split; [reflexivity|]. split; [discriminate|].
  split; [vm_compute; discriminate | vm_compute; reflexivity].
Qed.

Lemma validateConfig_rejects_arrays_witness :
  exists r,
    validateConfig (host := Reference.host) (VArr [VStr "darwin"]) = Ok r /\
    valid r = false /\ errors r <> [].
Proof.
  eexists. split; [reflexivity|].
  apply (validateConfig_rejects_arrays (host := Reference.host)
           (VArr [VStr "darwin"]) [VStr "darwin"]).
  - left. reflexivity.
  - reflexivity.
Defined.

Lemma resolve_detected_os_witness :
  exists t,
    getInstallTarget (VObj test_config) "linux" = Ok t /\ available t = true.
Proof.
  destruct (resolve_detected_os (host := Reference.host) test_config linux_agent)
    as (os & t & Hos & Ht & _ & Hav & _).
  - exact test_config_accepted.
  - reflexivity.
  - injection Hos as <-. exists t. split; [exact Ht|].
    apply Hav. simpl. tauto.
Defined.

Lemma getFirstInstaller_on_accepted_witness :
  truthy (snippet_target test_config VUndefined) = true.
Proof.
  apply (getFirstInstaller_on_accepted (host := Reference.host) test_config VUndefined).
  - exact test_config_accepted.
  - reflexivity.
Defined.

Lemma getFirstInstaller_order_independent_witness :
  getFirstInstaller
    (VObj [ ("linux", VStr "https://example.com/linux");
            ("darwin", VStr "https://example.com/mac") ]) =
  getFirstInstaller
    (VObj [ ("darwin", VStr "https://example.com/mac");
            ("linux", VStr "https://example.com/linux") ]).
Proof.
  apply getFirstInstaller_order_independent.
  - repeat constructor; simpl; intuition discriminate.
  - apply perm_swap.
  - exists "linux". split; [simpl; tauto | reflexivity].
Defined.

Lemma missing_name_badge_throws_snippets_print_witness :
  generateBadge (VObj [ ("installers", VObj [ ("linux", VStr "https://example.com/linux") ]) ]) =
  Throw TypeError /\
  exists sn,
    generateSnippets
      (VObj [ ("installers", VObj [ ("linux", VStr "https://example.com/linux") ]) ])
      VUndefined VUndefined = Ok sn /\
    markdown sn = "[![Install undefined](./install-badge.svg)](https://example.com/linux)".
Proof.
  apply (missing_name_badge_throws_snippets_print
           [ ("installers", VObj [ ("linux", VStr "https://example.com/linux") ]) ]
           "Install" "#0366d6" "flat" "./install-badge.svg" "https://example.com/linux"
           VUndefined VUndefined).
  - reflexivity.
  - left. reflexivity.
  - reflexivity.
  - reflexivity.
  - reflexivity.
  - right. eexists. reflexivity.
  - reflexivity.
  - reflexivity.
Defined.

Lemma unusable_parameter_answered_400_witness :
  Server.handleInstall (host := Reference.host) (node := ReferenceNode.node)
    bare_request [] =
  Server.Return ([] ++ ServerSpec.answer_400 "Missing config parameter")%list /\
  Server.handleInstall (host := Reference.host) (node := ReferenceNode.node)
    large_request [] =
  Server.Return ([] ++ ServerSpec.answer_400 "Config too large")%list.
Proof.
  split.
  - apply (unusable_parameter_answered_400 (host := Reference.host)
             (node := ReferenceNode.node) bare_request []).
    intros (text & Htext & _). discriminate Htext.
  - assert (Hparam : ServerSpec.config_param (node := ReferenceNode.node) large_request =
                     VStr (repeat_string "AAAA" 3000))
      by (vm_compute; reflexivity).
    assert (Hne : repeat_string "AAAA" 3000 <> "") by discriminate.
    assert (Hsize : (Server.MAX_CONFIG_SIZE <
                     N.of_nat (List.length
                                 (Server.Buffer_from_base64 (Node := ReferenceNode.node)
                                    (repeat_string "AAAA" 3000))))%N)
      by (vm_compute; reflexivity).
    exact (proj1 (proj2 (unusable_parameter_answered_400 (host := Reference.host)
                           (node := ReferenceNode.node) large_request [])
                    (repeat_string "AAAA" 3000) Hparam Hne Hsize)).
Defined.

Lemma invalid_config_answered_400_witness :
  Server.handleInstall (host := Reference.host) (node := ReferenceNode.node)
    invalid_request [] =
  Server.Return
    (ServerSpec.answer_400
       ("Invalid config: invalid platform: windows (must be darwin, win32, or linux), " ++
        "installer for windows must be a valid HTTP(S) URL")).
Proof.
  destruct (invalid_config_answered_400 (host := Reference.host)
              (node := ReferenceNode.node) invalid_request [] invalid_config_base64
              {| success := false; config := None;
                 parse_errors :=
                   Some [ "invalid platform: windows (must be darwin, win32, or linux)";
                          "installer for windows must be a valid HTTP(S) URL" ] |})
    as (e & es & He & Hinstall & _).
  - reflexivity.
  - discriminate.
  - vm_compute. discriminate.
  - vm_compute. reflexivity.
  - reflexivity.
  - injection He as <- <-. exact Hinstall.
Defined.

Lemma handleInstall_dispatch_witness :
  Server.handleInstall (host := Reference.host) (node := ReferenceNode.node)
    install_request [] =
  Server.Return (ServerSpec.answer_302 (VStr "https://example.com/linux")).
Proof.
  apply (handleInstall_dispatch (host := Reference.host) (node := ReferenceNode.node)
           install_request [] test_config "linux").
  - exact install_request_carries.
  - exact test_config_accepted.
  - reflexivity.
  - reflexivity.
  - reflexivity.
  - reflexivity.
Defined.



Lemma fallback_page_lists_installers_witness :
  exists name,
    member test_config "name" = VStr name /\
    includes
      (match Server.generateFallbackPage (VObj test_config) "win32" with
       | Ok page => page
       | _ => ""
       end)
      "No installer available for your platform" = true.
Proof.
  destruct (fallback_page_lists_installers (host := Reference.host)
              test_config "win32")
    as (name & Hname & Hpage).
  - exact test_config_accepted.
  - repeat constructor; simpl; intuition discriminate.
  - reflexivity.
  - simpl. tauto.
  - exists name. split; [exact Hname|]. rewrite Hpage.
    injection Hname as <-. vm_compute. reflexivity.
Defined.

Lemma handleBadge_serves_badge_witness :
  exists name,
    member test_config "name" = VStr name /\
    Server.handleBadge (host := Reference.host) (node := ReferenceNode.node)
      badge_request [] =
    Server.Return (ServerSpec.answer_badge (flat_badge "Install" name "#0366d6" 52 59 111)).
Proof.
  destruct (handleBadge_serves_badge (host := Reference.host)
              (node := ReferenceNode.node) badge_request [] test_config
              "Install" "#0366d6" "flat")
    as (name & Hname & Hrun).
  - exact badge_request_carries.
  - exact test_config_accepted.
  - left. reflexivity.
  - reflexivity.
  - reflexivity.
  - reflexivity.
  - exists name. split; [exact Hname|]. rewrite Hrun.
    injection Hname as <-. reflexivity.
Defined.

Lemma main_touches_only_its_files_witness :
  exists w' r,
    Cli.main (host := Reference.host) (printer := ReferencePrinter.printer)
      (VStr "validate") VUndefined empty_world = (w', r) /\
    (forall code, r = Cli.Exit code -> Cli.files w' = Cli.files empty_world).
Proof.
  eexists _, _. split; [vm_compute; reflexivity|].
  eapply (main_touches_only_its_files (host := Reference.host)
            (printer := ReferencePrinter.printer) (VStr "validate") VUndefined
            empty_world).
  vm_compute. reflexivity.
Defined.

Lemma init_then_validate_and_generate_witness :
  exists w1,
    Cli.cmdInit (printer := ReferencePrinter.printer)
      (VStr "TestApp") empty_world = (w1, Cli.Done tt) /\
    Cli.cmdValidate (host := Reference.host) w1 =
    (CliSpec.says w1 [Cli.Success "Config is valid"], Cli.Done tt).
Proof.
  edestruct (init_then_validate_and_generate (host := Reference.host)
               (printer := ReferencePrinter.printer)
               empty_world (VStr "TestApp") VUndefined "TestApp")
    as (w1 & w2 & sn & Hinit & _ & _ & Hvalidate & _).
  - reflexivity.
  - reflexivity.
  - reflexivity.
  - vm_compute. reflexivity.
  - vm_compute. reflexivity.
  - intros rest. reflexivity.
  - exists w1. split; [exact Hinit | exact Hvalidate].
Defined.
